(** * Attendance aggregation: daily and weekly worked hours

    A shallow embedding of [create_daily_attendance] and
    [create_weekly_attendance_or_update] of [crud.py], with the records of
    [models.py] they read and write, and the part of the interpreter's
    [datetime] module the two functions call. *)

From Stdlib Require Import ZArith QArith Qround Qabs Qpower List String Bool Lia Lqa.
Import ListNotations.
Local Open Scope Z_scope.

(** ** Exceptions and the result of a call *)

Inductive exn : Type :=
| ValueError (msg : string)
| OverflowError (msg : string)
| IndexError (msg : string).

Inductive result (A : Type) : Type :=
| Ok (a : A)
| Raise (e : exn).
Arguments Ok {A} a.
Arguments Raise {A} e.

Definition bind_result {A B : Type} (r : result A) (k : A -> result B) : result B :=
  match r with
  | Ok a => k a
  | Raise e => Raise e
  end.

(** ** Floats

    A Python float is a binary64 number, kept here as the rational it
    denotes.  An operation on floats returns the binary64 number nearest to
    the exact result, a tie going to the even significand.  The exponent
    range of binary64 is not modelled: the quotients of [crud.py] are far
    from its ends. *)
Module Double.

(** The nearest integer, a tie going to the even one: [rint]. *)
Definition rint (x : Q) : Z :=
  let f := Qfloor x in
  match Qcompare (x - inject_Z f) (1 # 2) with
  | Lt => f
  | Gt => f + 1
  | Eq => if Z.even f then f else f + 1
  end.

(** The exponent [k] of a rational that is not zero:
    [2 ^ k <= |x| < 2 ^ (k + 1)]. *)
Definition ilog2 (x : Q) : Z :=
  let k := Z.log2 (Z.abs (Qnum x)) - Z.log2 (Zpos (Qden x)) in
  if Qle_bool (2 ^ k) (Qabs x) then k else k - 1.

(** The binary64 number nearest to a rational: a significand of 53 bits. *)
Definition round (x : Q) : Q :=
  if Qeq_bool x 0 then 0%Q
  else
    let e := ilog2 x - 52 in
    (inject_Z (rint (x / 2 ^ e)) * 2 ^ e)%Q.

(** [a / b] on floats. *)
Definition div (a b : Q) : Q := round (a / b).

(** [n / m] on integers, which Python rounds once. *)
Definition true_divide (n m : Z) : Q := round (inject_Z n / inject_Z m).

End Double.

(** ** The [datetime] module, as far as [crud.py] uses it

    A naive [datetime] is kept as the proleptic Gregorian ordinal of its date
    (what [toordinal()] returns: 0001-01-01 is day 1), the second of the day
    ([hour*3600 + minute*60 + second]) and the microsecond.  The interpreter
    supports the years 1 to 9999 and raises [OverflowError] when a sum leaves
    that range. *)
Module Datetime.

Definition MAXORDINAL : Z := 3652059.

Record datetime : Type := mk_datetime {
  dt_ordinal : Z;
  dt_seconds : Z;
  dt_microsecond : Z
}.

Record timedelta : Type := mk_timedelta {
  td_days : Z;
  td_seconds : Z;
  td_microseconds : Z
}.

Definition valid_datetime (d : datetime) : Prop :=
  1 <= dt_ordinal d <= MAXORDINAL /\
  0 <= dt_seconds d < 86400 /\
  0 <= dt_microsecond d < 1000000.

Definition valid_datetimeb (d : datetime) : bool :=
  (1 <=? dt_ordinal d) && (dt_ordinal d <=? MAXORDINAL) &&
  (0 <=? dt_seconds d) && (dt_seconds d <? 86400) &&
  (0 <=? dt_microsecond d) && (dt_microsecond d <? 1000000).

(** The calendar arithmetic of the interpreter, used to write dates as
    year, month and day. *)
Definition is_leap (year : Z) : bool :=
  (year mod 4 =? 0) && (negb (year mod 100 =? 0) || (year mod 400 =? 0)).

Definition days_before_year (year : Z) : Z :=
  let y := year - 1 in
  y * 365 + y / 4 - y / 100 + y / 400.

Definition days_before_month (year month : Z) : Z :=
  nth (Z.to_nat month) [0; 0; 31; 59; 90; 120; 151; 181; 212; 243; 273; 304; 334] 0
  + (if (2 <? month) && is_leap year then 1 else 0).

Definition ymd2ord (year month day : Z) : Z :=
  days_before_year year + days_before_month year month + day.

(** [datetime(year, month, day, hour, minute, second, microsecond)] *)
Definition make (year month day hour minute second microsecond : Z) : datetime :=
  {| dt_ordinal := ymd2ord year month day;
     dt_seconds := hour * 3600 + minute * 60 + second;
     dt_microsecond := microsecond |}.

(** [timedelta(days=, seconds=, microseconds=)]: the constructor normalises
    so that [0 <= seconds < 86400] and [0 <= microseconds < 1000000]. *)
Definition new_timedelta (days seconds microseconds : Z) : timedelta :=
  let s := seconds + microseconds / 1000000 in
  {| td_days := days + s / 86400;
     td_seconds := s mod 86400;
     td_microseconds := microseconds mod 1000000 |}.

Definition timedelta_days (n : Z) : timedelta := new_timedelta n 0 0.

Definition neg_timedelta (t : timedelta) : timedelta :=
  new_timedelta (- td_days t) (- td_seconds t) (- td_microseconds t).

(** [d.date()], a date being its ordinal. *)
Definition date (d : datetime) : Z := dt_ordinal d.

(** [d.weekday()]: Monday is 0, Sunday is 6. *)
Definition weekday (d : datetime) : Z := (dt_ordinal d + 6) mod 7.

(** [d + t] *)
Definition add (d : datetime) (t : timedelta) : result datetime :=
  let delta :=
    new_timedelta (dt_ordinal d + td_days t)
                  (dt_seconds d + td_seconds t)
                  (dt_microsecond d + td_microseconds t) in
  if (0 <? td_days delta) && (td_days delta <=? MAXORDINAL)
  then Ok {| dt_ordinal := td_days delta;
             dt_seconds := td_seconds delta;
             dt_microsecond := td_microseconds delta |}
  else Raise (OverflowError "date value out of range").

(** [d - t], that is [d + (-t)]. *)
Definition sub_timedelta (d : datetime) (t : timedelta) : result datetime :=
  add d (neg_timedelta t).

(** [d1 - d2], both naive. *)
Definition sub (d1 d2 : datetime) : timedelta :=
  new_timedelta (dt_ordinal d1 - dt_ordinal d2)
                (dt_seconds d1 - dt_seconds d2)
                (dt_microsecond d1 - dt_microsecond d2).

Definition total_microseconds (t : timedelta) : Z :=
  (td_days t * 86400 + td_seconds t) * 1000000 + td_microseconds t.

(** [t.total_seconds()]: the microseconds of [t] divided by [10**6], a
    float. *)
Definition total_seconds (t : timedelta) : Q :=
  Double.true_divide (total_microseconds t) 1000000.

(** [d1 < d2]: the fields are compared in order. *)
Definition ltb (d1 d2 : datetime) : bool :=
  (dt_ordinal d1 <? dt_ordinal d2)
  || ((dt_ordinal d1 =? dt_ordinal d2)
      && ((dt_seconds d1 <? dt_seconds d2)
          || ((dt_seconds d1 =? dt_seconds d2)
              && (dt_microsecond d1 <? dt_microsecond d2)))).

(** Microseconds since the start of day 0, the scale on which two
    datetimes are subtracted. *)
Definition to_microseconds (d : datetime) : Z :=
  (dt_ordinal d * 86400 + dt_seconds d) * 1000000 + dt_microsecond d.

End Datetime.
Import Datetime.


(** ** The tables of [models.py] *)

Definition UUID : Type := N.

(** [class Attendance(AttendanceBase, table=True)] *)
Record Attendance : Type := mk_Attendance {
  att_status : bool;
  att_reason : option string;
  att_type_attendance : string;
  att_full_name : option string;
  att_attend_id : option Z;
  att_id : UUID;
  att_user_id : UUID;
  att_created_at : datetime
}.

(** [class DailyAttendance(DailyAttendanceBase, table=True)].  The field
    [daily_attendance_hours] is annotated [int], but a table model is not
    validated when it is built: the object that [create_daily_attendance]
    builds holds the float it computed, and the object it returns, read
    back from the table, holds an integer. *)
Record DailyAttendance : Type := mk_DailyAttendance {
  da_daily_attendance_hours : Q;
  da_full_name : option string;
  da_attend_id : option Z;
  da_id : UUID;
  da_user_id : UUID;
  da_created_at : datetime
}.

(** [class WeeklyAttendance(WeeklyAttendanceBase, table=True)].  The field
    [weekly_attendance_hours] and the argument [daily_attendance_hours] that
    is added to it are both annotated [int]. *)
Record WeeklyAttendance : Type := mk_WeeklyAttendance {
  wa_weekly_attendance_hours : Z;
  wa_start_date : datetime;
  wa_end_date : datetime;
  wa_full_name : option string;
  wa_attend_id : option Z;
  wa_id : UUID;
  wa_user_id : UUID;
  wa_created_at : datetime
}.

(** ** The session

    The database behind a [Session]: one list of rows per table, in the
    order in which a [select] without [order_by] returns them. *)
Record Session : Type := mk_Session {
  attendance : list Attendance;
  dailyattendance : list DailyAttendance;
  weeklyattendance : list WeeklyAttendance
}.

(** A call runs on a session and ends with a value or an exception, and
    leaves a session behind in both cases. *)
Definition M (A : Type) : Type := Session -> result A * Session.

Definition ret {A : Type} (a : A) : M A := fun s => (Ok a, s).

Definition raise {A : Type} (e : exn) : M A := fun s => (Raise e, s).

Definition bind {A B : Type} (m : M A) (k : A -> M B) : M B :=
  fun s =>
    match m s with
    | (Ok a, s') => k a s'
    | (Raise e, s') => (Raise e, s')
    end.

Definition lift {A : Type} (r : result A) : M A := fun s => (r, s).

Declare Scope crud_scope.
Delimit Scope crud_scope with crud.
Notation "x <- m ;; k" := (bind m (fun x => k))
  (at level 61, m at next level, right associativity) : crud_scope.
Local Open Scope crud_scope.

(** [session.exec(select(Attendance).where(...)).all()] *)
Definition exec_all_attendance (where_ : Attendance -> bool) : M (list Attendance) :=
  fun s => (Ok (filter where_ (attendance s)), s).

(** [session.exec(select(WeeklyAttendance).where(...)).first()] *)
Definition exec_first_weekly (where_ : WeeklyAttendance -> bool)
  : M (option WeeklyAttendance) :=
  fun s => (Ok (find where_ (weeklyattendance s)), s).

(** [l[i]] on a Python list, for [i >= 0]. *)
Definition index {A : Type} (l : list A) (i : nat) : M A :=
  match nth_error l i with
  | Some a => ret a
  | None => raise (IndexError "list index out of range")
  end.

(** What a column declared [Integer] keeps of a float: the table casts the
    double precision value to the nearest integer, a tie going to the even
    one. *)
Definition integer_column (x : Q) : Q := inject_Z (Double.rint x).

(** The row of the daily table for an object: [daily_attendance_hours] is
    an [Integer] column ([models.py] and the migration). *)
Definition daily_row (obj : DailyAttendance) : DailyAttendance :=
  {| da_daily_attendance_hours := integer_column (da_daily_attendance_hours obj);
     da_full_name := da_full_name obj;
     da_attend_id := da_attend_id obj;
     da_id := da_id obj;
     da_user_id := da_user_id obj;
     da_created_at := da_created_at obj |}.

(** [session.add(obj); session.commit(); session.refresh(obj)] for an object
    that was just built: one row is inserted, and the object is read back
    from it.  [uuid4()] is taken to return a key that the table does not
    hold yet.  A commit that the store refuses (a value outside the range
    of a column, a [user_id] that is no user) is a failure of the store,
    not of these functions, and is left out here and below. *)
Definition insert_daily (obj : DailyAttendance) : M DailyAttendance :=
  fun s =>
    (Ok (daily_row obj),
     {| attendance := attendance s;
        dailyattendance := dailyattendance s ++ [daily_row obj];
        weeklyattendance := weeklyattendance s |}).

Definition insert_weekly (obj : WeeklyAttendance) : M WeeklyAttendance :=
  fun s =>
    (Ok obj,
     {| attendance := attendance s;
        dailyattendance := dailyattendance s;
        weeklyattendance := weeklyattendance s ++ [obj] |}).

Definition set_weekly_attendance_hours (w : WeeklyAttendance) (h : Z)
  : WeeklyAttendance :=
  {| wa_weekly_attendance_hours := h;
     wa_start_date := wa_start_date w;
     wa_end_date := wa_end_date w;
     wa_full_name := wa_full_name w;
     wa_attend_id := wa_attend_id w;
     wa_id := wa_id w;
     wa_user_id := wa_user_id w;
     wa_created_at := wa_created_at w |}.

(** [UPDATE weeklyattendance SET weekly_attendance_hours = hours WHERE
    id = id], on one row. *)
Definition bump (id : UUID) (hours : Z) (r : WeeklyAttendance) : WeeklyAttendance :=
  if N.eqb (wa_id r) id then set_weekly_attendance_hours r hours else r.

(** The same three calls for an object that was loaded from the table and
    whose [weekly_attendance_hours] was assigned: the column is updated on
    the row that has the object's primary key. *)
Definition update_weekly (obj : WeeklyAttendance) : M WeeklyAttendance :=
  fun s =>
    (Ok obj,
     {| attendance := attendance s;
        dailyattendance := dailyattendance s;
        weeklyattendance :=
          map (bump (wa_id obj) (wa_weekly_attendance_hours obj))
              (weeklyattendance s) |}).

(** ** [crud.py]

    [new_id] and [now] are the values that [uuid.uuid4()] and
    [datetime.now()] return when the new row is built. *)

(** The two [where] clauses of the query of [create_daily_attendance]:
    [Attendance.user_id == user_id] and
    [func.date(Attendance.created_at) == date.date()]. *)
Definition on_day (user_id : UUID) (date : datetime) (a : Attendance) : bool :=
  N.eqb (att_user_id a) user_id
  && (Datetime.date (att_created_at a) =? Datetime.date date).

(** [(check_out_time - check_in_time).total_seconds() / 3600], a float. *)
Definition hours_between (check_in_time check_out_time : datetime) : Q :=
  Double.div (total_seconds (Datetime.sub check_out_time check_in_time)) 3600.

Definition create_daily_attendance (new_id : UUID) (now : datetime)
    (user_id : UUID) (full_name : string) (attend_id : Z) (date : datetime)
  : M DailyAttendance :=
  db_attendance <- exec_all_attendance (on_day user_id date) ;;
  if (List.length db_attendance <? 2)%nat
  then raise (ValueError "Insufficient attendance records for today")
  else
    first_ <- index db_attendance 0 ;;
    second_ <- index db_attendance 1 ;;
    let check_in_time := att_created_at first_ in
    let check_out_time := att_created_at second_ in
    let daily_attendance_hours := hours_between check_in_time check_out_time in
    let db_daily_attendance :=
      {| da_daily_attendance_hours := daily_attendance_hours;
         da_full_name := Some full_name;
         da_attend_id := Some attend_id;
         da_id := new_id;
         da_user_id := user_id;
         da_created_at := now |} in
    insert_daily db_daily_attendance.

(** The first lines of [create_weekly_attendance_or_update]:
    [start_date = today - timedelta(days=today.weekday())] and
    [end_date = start_date + timedelta(days=6)]. *)
Definition week_bounds (today : datetime) : result (datetime * datetime) :=
  bind_result (sub_timedelta today (timedelta_days (weekday today)))
    (fun start_date =>
       bind_result (Datetime.add start_date (timedelta_days 6))
         (fun end_date => Ok (start_date, end_date))).

(** The three [where] clauses of its lookup:
    [WeeklyAttendance.user_id == user_id],
    [func.date(WeeklyAttendance.start_date) <= date.date()] and
    [func.date(WeeklyAttendance.end_date) >= date.date()]. *)
Definition covers (user_id : UUID) (date : datetime) (w : WeeklyAttendance) : bool :=
  N.eqb (wa_user_id w) user_id
  && (Datetime.date (wa_start_date w) <=? Datetime.date date)
  && (Datetime.date (wa_end_date w) >=? Datetime.date date).

Definition create_weekly_attendance_or_update (new_id : UUID) (now : datetime)
    (user_id : UUID) (full_name : string) (attend_id : Z)
    (daily_attendance_hours : Z) (date : datetime)
  : M WeeklyAttendance :=
  let today := date in
  bounds <- lift (week_bounds today) ;;
  let start_date := fst bounds in
  let end_date := snd bounds in
  db_weekly_attendance <- exec_first_weekly (covers user_id date) ;;
  match db_weekly_attendance with
  | Some found =>
      update_weekly
        (set_weekly_attendance_hours found
           (wa_weekly_attendance_hours found + daily_attendance_hours))
  | None =>
      insert_weekly
        {| wa_weekly_attendance_hours := daily_attendance_hours;
           wa_start_date := start_date;
           wa_end_date := end_date;
           wa_full_name := Some full_name;
           wa_attend_id := Some attend_id;
           wa_id := new_id;
           wa_user_id := user_id;
           wa_created_at := now |}
  end.

(** ** Words of the specification

    [find_events]: the events of a user on a day "ordered by creation time
    ascending", a stable insertion sort of what the query returns. *)
Fixpoint insert_by_created_at (a : Attendance) (l : list Attendance)
  : list Attendance :=
  match l with
  | [] => [a]
  | b :: l' =>
      if Datetime.ltb (att_created_at b) (att_created_at a)
      then b :: insert_by_created_at a l'
      else a :: l
  end.

Definition find_events (user_id : UUID) (date : datetime) (s : Session)
  : list Attendance :=
  fold_right insert_by_created_at [] (filter (on_day user_id date) (attendance s)).

(** The elapsed time between two datetimes in seconds, as a rational. *)
Definition seconds_between (check_in_time check_out_time : datetime) : Q :=
  Qmake (to_microseconds check_out_time - to_microseconds check_in_time) 1000000.

(** The exact quotient, in hours, of a number of microseconds. *)
Definition exact_hours (n : Z) : Q := (inject_Z n * (1 # 3600000000))%Q.

(** The Monday of the week of a day, and the last day on which a week may
    start so that its Sunday is still a date. *)
Definition monday_of (today : datetime) : Z := Datetime.date today - weekday today.

Definition week_representable (today : datetime) : Prop :=
  monday_of today + 6 <= MAXORDINAL.

(** A weekly row is a Monday to Sunday window. *)
Definition aligned (w : WeeklyAttendance) : Prop :=
  weekday (wa_start_date w) = 0
  /\ Datetime.date (wa_end_date w) = Datetime.date (wa_start_date w) + 6.

(** The weekly rows of a user that cover a day. *)
Definition covering (user_id : UUID) (date : datetime) (s : Session)
  : list WeeklyAttendance :=
  filter (covers user_id date) (weeklyattendance s).

(** At most one weekly row of a user covers a day, and every weekly row is
    a Monday to Sunday window. *)
Definition at_most_one_bucket (s : Session) : Prop :=
  forall user_id date, (List.length (covering user_id date s) <= 1)%nat.

Definition well_formed (s : Session) : Prop :=
  Forall aligned (weeklyattendance s) /\ at_most_one_bucket s.

(** The sessions that calls of [create_weekly_attendance_or_update] lead to
    from a session without weekly rows. *)
Inductive reachable : Session -> Prop :=
| reachable_init (s : Session) :
    weeklyattendance s = [] -> reachable s
| reachable_step (s : Session) (new_id : UUID) (now : datetime)
    (user_id : UUID) (full_name : string) (attend_id : Z)
    (daily_attendance_hours : Z) (date : datetime) :
    reachable s ->
    valid_datetime date ->
    reachable
      (snd (create_weekly_attendance_or_update new_id now user_id full_name
              attend_id daily_attendance_hours date s)).

(** ** Sample data *)
Module Sample.

Definition alice : UUID := 7%N.

Definition event (id : UUID) (created_at : datetime) : Attendance :=
  {| att_status := true;
     att_reason := None;
     att_type_attendance := "fingerprint"%string;
     att_full_name := Some "Alice"%string;
     att_attend_id := Some 12;
     att_id := id;
     att_user_id := alice;
     att_created_at := created_at |}.

Definition wednesday : datetime := make 2025 2 19 17 30 0 0.
Definition friday : datetime := make 2025 2 21 18 0 0 0.
Definition monday_morning : datetime := make 2025 2 17 0 0 1 0.
Definition sunday_night : datetime := make 2025 2 23 23 59 59 0.
Definition last_day : datetime := make 9999 12 31 9 0 0 0.

Definition at_9_00 : Attendance := event 1%N (make 2025 2 19 9 0 0 0).
Definition at_10_00 : Attendance := event 2%N (make 2025 2 19 10 0 0 0).
Definition at_14_30 : Attendance := event 3%N (make 2025 2 19 14 30 0 0).
Definition at_18_00 : Attendance := event 4%N (make 2025 2 19 18 0 0 0).

Definition with_events (l : list Attendance) : Session :=
  {| attendance := l; dailyattendance := []; weeklyattendance := [] |}.

Definition empty : Session := with_events [].
Definition one_event : Session := with_events [at_9_00].
Definition regular_day : Session := with_events [at_9_00; at_14_30].
Definition busy_day : Session := with_events [at_9_00; at_14_30; at_18_00].
Definition reversed_day : Session := with_events [at_10_00; at_9_00].

Definition bucket : WeeklyAttendance :=
  {| wa_weekly_attendance_hours := 5;
     wa_start_date := make 2025 2 17 8 0 0 0;
     wa_end_date := make 2025 2 23 8 0 0 0;
     wa_full_name := Some "Alice"%string;
     wa_attend_id := Some 12;
     wa_id := 100%N;
     wa_user_id := alice;
     wa_created_at := make 2025 2 17 8 0 0 0 |}.

Definition with_bucket : Session :=
  {| attendance := []; dailyattendance := []; weeklyattendance := [bucket] |}.

End Sample.

(** More days of events. *)
Module SampleDay.

Definition at_9_50 : Attendance := Sample.event 5%N (make 2025 2 19 9 50 0 0).
Definition at_0_00 : Attendance := Sample.event 6%N (make 2025 2 19 0 0 0 0).
Definition at_23_59 : Attendance :=
  Sample.event 7%N (make 2025 2 19 23 59 59 999999).

Definition ten_minutes_back : Session :=
  Sample.with_events [Sample.at_10_00; at_9_50].
Definition whole_day : Session := Sample.with_events [at_0_00; at_23_59].

End SampleDay.

(** ** Sequences of weekly calls and totals *)

(** The arguments of one call of [create_weekly_attendance_or_update] that
    change from day to day. *)
Record weekly_call : Type := mk_weekly_call {
  wc_new_id : UUID;
  wc_now : datetime;
  wc_daily_attendance_hours : Z;
  wc_date : datetime
}.

(** The session after the calls of a list, one after the other, for one
    user. *)
Fixpoint run_weekly (user_id : UUID) (full_name : string) (attend_id : Z)
    (calls : list weekly_call) (s : Session) : Session :=
  match calls with
  | [] => s
  | c :: calls' =>
      run_weekly user_id full_name attend_id calls'
        (snd (create_weekly_attendance_or_update (wc_new_id c) (wc_now c) user_id
                full_name attend_id (wc_daily_attendance_hours c) (wc_date c) s))
  end.

Definition sum_hours (calls : list weekly_call) : Z :=
  fold_right Z.add 0 (map wc_daily_attendance_hours calls).

(** The hours of all weekly rows together. *)
Definition total_weekly_hours (s : Session) : Z :=
  fold_right Z.add 0 (map wa_weekly_attendance_hours (weeklyattendance s)).

(** [id] is the primary key of the weekly table. *)
Definition unique_ids (s : Session) : Prop :=
  NoDup (map wa_id (weeklyattendance s)).

(** A weekly row whose two dates are datetimes, a Monday and the Sunday
    after it, at the same time of day. *)
Definition week_window (w : WeeklyAttendance) : Prop :=
  valid_datetime (wa_start_date w)
  /\ valid_datetime (wa_end_date w)
  /\ weekday (wa_start_date w) = 0
  /\ weekday (wa_end_date w) = 6
  /\ Datetime.date (wa_end_date w) = Datetime.date (wa_start_date w) + 6
  /\ dt_seconds (wa_end_date w) = dt_seconds (wa_start_date w)
  /\ dt_microsecond (wa_end_date w) = dt_microsecond (wa_start_date w).

(** 9999-12-26, the last date whose week ends in the year 9999. *)
Definition LAST_FULL_WEEK_DAY : Z := ymd2ord 9999 12 26.

(** ** Users

    [class User(UserBase, table=True)] and [class UserCreate(UserBase)] of
    [models.py]. *)
Record User : Type := mk_User {
  u_email : string;
  u_is_active : bool;
  u_is_superuser : bool;
  u_full_name : option string;
  u_attend_id : Z;
  u_weekly_work_hours : option Z;
  u_id : UUID;
  u_hashed_password : string
}.

Record UserCreate : Type := mk_UserCreate {
  uc_email : string;
  uc_is_active : bool;
  uc_is_superuser : bool;
  uc_full_name : option string;
  uc_attend_id : Z;
  uc_weekly_work_hours : option Z;
  uc_password : string
}.

(** The database with its user table, beside the tables above. *)
Record Database : Type := mk_Database {
  user : list User;
  tables : Session
}.

(** The exceptions of the user functions. *)
Inductive user_exn : Type :=
| AttributeError (msg : string)
| IntegrityError.

Inductive outcome (A : Type) : Type :=
| Returned (a : A)
| Raised (e : user_exn).
Arguments Returned {A} a.
Arguments Raised {A} e.

Definition DB (A : Type) : Type := Database -> outcome A * Database.

Definition db_ret {A : Type} (a : A) : DB A := fun db => (Returned a, db).

Definition db_raise {A : Type} (e : user_exn) : DB A := fun db => (Raised e, db).

Definition db_bind {A B : Type} (m : DB A) (k : A -> DB B) : DB B :=
  fun db =>
    match m db with
    | (Returned a, db') => k a db'
    | (Raised e, db') => (Raised e, db')
    end.

(** [session.exec(select(User).where(...)).first()] *)
Definition exec_first_user (where_ : User -> bool) : DB (option User) :=
  fun db => (Returned (find where_ (user db)), db).

(** [obj.email], where [obj] may be [None]. *)
Definition getattr_email (obj : option User) : DB string :=
  match obj with
  | Some u => db_ret (u_email u)
  | None => db_raise (AttributeError "'NoneType' object has no attribute 'email'")
  end.

(** Whether the row [u] of the user table forbids the insertion of [obj],
    by the constraints that [models.py] declares: [id] is the primary key,
    [email] and [attend_id] are [unique=True]. *)
Definition conflicts (obj u : User) : bool :=
  N.eqb (u_id u) (u_id obj)
  || String.eqb (u_email u) (u_email obj)
  || (u_attend_id u =? u_attend_id obj).

(** [session.add(obj); session.commit(); session.refresh(obj)] for a new
    user: the commit raises when a constraint is violated, and inserts the
    row otherwise. *)
Definition insert_user (obj : User) : DB User :=
  fun db =>
    if existsb (conflicts obj) (user db)
    then (Raised IntegrityError, db)
    else (Returned obj, {| user := user db ++ [obj]; tables := tables db |}).

(** [create_user] of [crud.py].  [get_password_hash] is a function of
    [app.core.security], and [new_id] what [uuid.uuid4()] returns.  The
    f-string of the log line reads [db_obj.email]. *)
Definition create_user (get_password_hash : string -> string) (new_id : UUID)
    (user_create : UserCreate) : DB User :=
  let db_obj :=
    {| u_email := uc_email user_create;
       u_is_active := uc_is_active user_create;
       u_is_superuser := uc_is_superuser user_create;
       u_full_name := uc_full_name user_create;
       u_attend_id := uc_attend_id user_create;
       u_weekly_work_hours := uc_weekly_work_hours user_create;
       u_id := new_id;
       u_hashed_password := get_password_hash (uc_password user_create) |} in
  db_bind (insert_user db_obj) (fun db_obj =>
  db_bind (getattr_email (Some db_obj)) (fun _ =>
  db_ret db_obj)).

(** [get_user_by_email]: the log line reads [session_user.email] before the
    function returns. *)
Definition get_user_by_email (email : string) : DB (option User) :=
  db_bind (exec_first_user (fun u => String.eqb (u_email u) email))
    (fun session_user =>
  db_bind (getattr_email session_user) (fun _ =>
  db_ret session_user)).

(** [authenticate].  [verify_password] is a function of
    [app.core.security]. *)
Definition authenticate (verify_password : string -> string -> bool)
    (email password : string) : DB (option User) :=
  db_bind (get_user_by_email email) (fun db_user =>
  match db_user with
  | None => db_ret None
  | Some u =>
      if negb (verify_password password (u_hashed_password u))
      then db_ret None
      else db_bind (getattr_email (Some u)) (fun _ => db_ret (Some u))
  end).

(** Sample users, with a hash that can be read. *)
Module SampleUsers.

Definition get_password_hash (password : string) : string :=
  String.append "hashed:" password.

Definition verify_password (plain hashed : string) : bool :=
  String.eqb (get_password_hash plain) hashed.

Definition alice_create : UserCreate :=
  {| uc_email := "alice@example.com";
     uc_is_active := true;
     uc_is_superuser := false;
     uc_full_name := Some "Alice"%string;
     uc_attend_id := 12;
     uc_weekly_work_hours := Some 40;
     uc_password := "correct horse" |}.

Definition bob : User :=
  {| u_email := "bob@example.com";
     u_is_active := true;
     u_is_superuser := false;
     u_full_name := Some "Bob"%string;
     u_attend_id := 0;
     u_weekly_work_hours := Some 0;
     u_id := 8%N;
     u_hashed_password := "hashed:battery staple" |}.

Definition carol_create : UserCreate :=
  {| uc_email := "carol@example.com";
     uc_is_active := true;
     uc_is_superuser := false;
     uc_full_name := None;
     uc_attend_id := 0;
     uc_weekly_work_hours := Some 0;
     uc_password := "tr0ub4dor&3" |}.

Definition only_bob : Database :=
  {| user := [bob]; tables := Sample.empty |}.

End SampleUsers.

(** ** The datetime arithmetic *)

Lemma new_timedelta_total (days seconds microseconds : Z) :
  total_microseconds (new_timedelta days seconds microseconds)
  = (days * 86400 + seconds) * 1000000 + microseconds.
Proof.
  unfold total_microseconds, new_timedelta; simpl.
  pose proof (Z.div_mod microseconds 1000000 ltac:(lia)) as Hu.
  pose proof (Z.div_mod (seconds + microseconds / 1000000) 86400 ltac:(lia)) as Hs.
  lia.
Qed.

Lemma sub_total (d1 d2 : datetime) :
  total_microseconds (Datetime.sub d1 d2) = to_microseconds d1 - to_microseconds d2.
Proof.
  unfold Datetime.sub; rewrite new_timedelta_total; unfold to_microseconds; lia.
Qed.

Lemma add_total (d d' : datetime) (t : timedelta) :
  Datetime.add d t = Ok d' ->
  to_microseconds d' = to_microseconds d + total_microseconds t.
Proof.
  unfold Datetime.add.
  destruct (_ && _); [|discriminate].
  intros H; injection H as <-.
  pose proof (new_timedelta_total (dt_ordinal d + td_days t)
                (dt_seconds d + td_seconds t)
                (dt_microsecond d + td_microseconds t)) as Ht.
  unfold total_microseconds, new_timedelta in Ht; simpl in Ht.
  unfold to_microseconds, total_microseconds; simpl.
  lia.
Qed.

Lemma timedelta_days_eq (n : Z) : timedelta_days n = mk_timedelta n 0 0.
Proof.
  unfold timedelta_days, new_timedelta.
  change ((0 + 0 / 1000000) / 86400) with 0.
  rewrite Z.add_0_r. reflexivity.
Qed.

Lemma neg_timedelta_days (n : Z) :
  neg_timedelta (timedelta_days n) = mk_timedelta (- n) 0 0.
Proof.
  rewrite timedelta_days_eq; unfold neg_timedelta, new_timedelta; simpl.
  change ((0 + 0 / 1000000) / 86400) with 0.
  rewrite Z.add_0_r. reflexivity.
Qed.

Lemma add_whole_days (d : datetime) (n : Z) :
  valid_datetime d ->
  Datetime.add d (mk_timedelta n 0 0)
  = if (0 <? dt_ordinal d + n) && (dt_ordinal d + n <=? MAXORDINAL)
    then Ok (mk_datetime (dt_ordinal d + n) (dt_seconds d) (dt_microsecond d))
    else Raise (OverflowError "date value out of range").
Proof.
  intros (Ho & Hs & Hu).
  unfold Datetime.add, new_timedelta; simpl.
  rewrite !Z.add_0_r.
  rewrite (Z.div_small (dt_microsecond d)), (Z.mod_small (dt_microsecond d)) by lia.
  rewrite Z.add_0_r.
  rewrite (Z.div_small (dt_seconds d)), (Z.mod_small (dt_seconds d)) by lia.
  rewrite Z.add_0_r.
  reflexivity.
Qed.

Lemma valid_datetimeb_sound (d : datetime) :
  valid_datetimeb d = true -> valid_datetime d.
Proof.
  unfold valid_datetimeb, valid_datetime. rewrite !andb_true_iff.
  rewrite !Z.leb_le, !Z.ltb_lt. tauto.
Qed.

Lemma weekday_range (d : datetime) : 0 <= weekday d <= 6.
Proof.
  unfold weekday. pose proof (Z.mod_pos_bound (dt_ordinal d + 6) 7 ltac:(lia)). lia.
Qed.

Lemma monday_of_pos (d : datetime) : 1 <= dt_ordinal d -> 1 <= monday_of d.
Proof.
  unfold monday_of, Datetime.date, weekday. intros H.
  pose proof (Z.div_mod (dt_ordinal d + 6) 7 ltac:(lia)).
  pose proof (Z.mod_pos_bound (dt_ordinal d + 6) 7 ltac:(lia)).
  assert (1 <= (dt_ordinal d + 6) / 7) by (apply Z.div_le_lower_bound; lia).
  lia.
Qed.

Lemma monday_of_weekday (d : datetime) : (monday_of d + 6) mod 7 = 0.
Proof.
  unfold monday_of, Datetime.date, weekday.
  pose proof (Z.div_mod (dt_ordinal d + 6) 7 ltac:(lia)) as H.
  replace (dt_ordinal d - (dt_ordinal d + 6) mod 7 + 6)
    with (((dt_ordinal d + 6) / 7) * 7) by lia.
  apply Z.mod_mul; lia.
Qed.

(** ** The week of a day *)

Lemma week_bounds_eq (today : datetime) :
  valid_datetime today ->
  week_bounds today
  = if monday_of today + 6 <=? MAXORDINAL
    then Ok (mk_datetime (monday_of today) (dt_seconds today) (dt_microsecond today),
             mk_datetime (monday_of today + 6) (dt_seconds today) (dt_microsecond today))
    else Raise (OverflowError "date value out of range").
Proof.
  intros Hv.
  pose proof Hv as (Ho & Hs & Hu).
  pose proof (monday_of_pos today ltac:(lia)) as Hm.
  pose proof (weekday_range today) as Hw.
  unfold week_bounds, sub_timedelta.
  rewrite neg_timedelta_days, add_whole_days by exact Hv.
  assert (Hmon : dt_ordinal today + - weekday today = monday_of today)
    by (unfold monday_of, Datetime.date; lia).
  rewrite Hmon.
  replace ((0 <? monday_of today) && (monday_of today <=? MAXORDINAL)) with true
    by (symmetry; apply andb_true_iff; split;
        [apply Z.ltb_lt | apply Z.leb_le]; unfold monday_of, Datetime.date in *; lia).
  cbn [bind_result].
  rewrite timedelta_days_eq, add_whole_days
    by (unfold valid_datetime; cbn; unfold monday_of, Datetime.date in *; lia).
  cbn [dt_ordinal dt_seconds dt_microsecond].
  replace (0 <? monday_of today + 6) with true by (symmetry; apply Z.ltb_lt; lia).
  cbn [andb].
  destruct (monday_of today + 6 <=? MAXORDINAL); reflexivity.
Qed.

Lemma week_bounds_ok (today : datetime) :
  valid_datetime today ->
  week_representable today ->
  week_bounds today
  = Ok (mk_datetime (monday_of today) (dt_seconds today) (dt_microsecond today),
        mk_datetime (monday_of today + 6) (dt_seconds today) (dt_microsecond today)).
Proof.
  intros Hv Hr. rewrite week_bounds_eq by exact Hv.
  apply Z.leb_le in Hr. rewrite Hr. reflexivity.
Qed.

Lemma week_bounds_inv (today start_date end_date : datetime) :
  valid_datetime today ->
  week_bounds today = Ok (start_date, end_date) ->
  start_date = mk_datetime (monday_of today) (dt_seconds today) (dt_microsecond today)
  /\ end_date = mk_datetime (monday_of today + 6) (dt_seconds today) (dt_microsecond today)
  /\ week_representable today.
Proof.
  intros Hv. rewrite week_bounds_eq by exact Hv.
  destruct (monday_of today + 6 <=? MAXORDINAL) eqn:E; [|discriminate].
  intros H; injection H as <- <-.
  repeat split. apply Z.leb_le; exact E.
Qed.

Lemma week_bounds_overflow (today : datetime) :
  valid_datetime today ->
  ~ week_representable today ->
  week_bounds today = Raise (OverflowError "date value out of range").
Proof.
  intros Hv Hr. rewrite week_bounds_eq by exact Hv.
  destruct (monday_of today + 6 <=? MAXORDINAL) eqn:E; [|reflexivity].
  apply Z.leb_le in E. contradiction.
Qed.

Lemma monday_is_monday (today : datetime) (secs us : Z) :
  weekday (mk_datetime (monday_of today) secs us) = 0.
Proof. unfold weekday; cbn. apply monday_of_weekday. Qed.

Lemma sunday_is_sunday (today : datetime) (secs us : Z) :
  weekday (mk_datetime (monday_of today + 6) secs us) = 6.
Proof.
  unfold weekday; cbn.
  pose proof (monday_of_weekday today) as H.
  replace (monday_of today + 6 + 6) with (6 + (monday_of today + 6)) by lia.
  rewrite Z.add_mod, H by lia. reflexivity.
Qed.

(** C3, amended: for every date whose week ends no later than 9999-12-31,
    the start of the week is the date minus its weekday, a Monday with the
    time of day of the input, and the end is six days later, a Sunday; its
    date lies between them; from a Wednesday the week starts two days
    before and ends four days after; another time of day on the same date
    gives the same two dates. *)
Theorem week_bounds_monday_to_sunday (today : datetime) :
  valid_datetime today ->
  week_representable today ->
  exists start_date end_date,
    week_bounds today = Ok (start_date, end_date)
    /\ Datetime.date start_date = Datetime.date today - weekday today
    /\ dt_seconds start_date = dt_seconds today
    /\ dt_microsecond start_date = dt_microsecond today
    /\ weekday start_date = 0
    /\ Datetime.date end_date = Datetime.date start_date + 6
    /\ weekday end_date = 6
    /\ Datetime.date start_date <= Datetime.date today <= Datetime.date end_date
    /\ (weekday today = 2 ->
        Datetime.date start_date = Datetime.date today - 2
        /\ Datetime.date end_date = Datetime.date today + 4)
    /\ (forall other, valid_datetime other ->
          Datetime.date other = Datetime.date today ->
          exists start_date' end_date',
            week_bounds other = Ok (start_date', end_date')
            /\ Datetime.date start_date' = Datetime.date start_date
            /\ Datetime.date end_date' = Datetime.date end_date).
Proof.
  intros Hv Hr.
  pose proof (weekday_range today) as Hw.
  eexists; eexists; split; [apply week_bounds_ok; assumption|].
  unfold Datetime.date; cbn [dt_ordinal dt_seconds dt_microsecond].
  repeat split.
  - apply monday_is_monday.
  - apply sunday_is_sunday.
  - unfold monday_of, Datetime.date; lia.
  - unfold monday_of, Datetime.date; lia.
  - unfold monday_of, Datetime.date; lia.
  - unfold monday_of, Datetime.date; lia.
  - intros other Hvo Hd.
    assert (Hm : monday_of other = monday_of today)
      by (unfold monday_of, weekday, Datetime.date in *; rewrite Hd; reflexivity).
    eexists; eexists; split.
    + apply week_bounds_ok; [assumption|]. unfold week_representable. rewrite Hm. exact Hr.
    + cbn. rewrite Hm. split; reflexivity.
Qed.

Lemma week_bounds_monday_to_sunday_witness :
  exists start_date end_date,
    week_bounds (make 2025 2 19 17 30 0 0) = Ok (start_date, end_date)
    /\ Datetime.date start_date = ymd2ord 2025 2 17
    /\ Datetime.date end_date = ymd2ord 2025 2 23.
Proof.
  destruct (week_bounds_monday_to_sunday (make 2025 2 19 17 30 0 0))
    as (s & e & H & Hs & _ & _ & _ & He & _).
  - apply valid_datetimeb_sound; reflexivity.
  - unfold week_representable; vm_compute; discriminate.
  - exists s, e. split; [exact H|]. split.
    + rewrite Hs. reflexivity.
    + rewrite He, Hs. reflexivity.
Defined.

(** C3 as stated fails on the last five days of the year 9999: the Sunday
    of that week is no datetime and the sum raises. *)
Lemma week_bounds_not_total :
  valid_datetime (make 9999 12 31 9 0 0 0)
  /\ week_bounds (make 9999 12 31 9 0 0 0)
     = Raise (OverflowError "date value out of range")
  /\ ~ (forall today, valid_datetime today ->
          exists start_date end_date,
            week_bounds today = Ok (start_date, end_date)
            /\ Datetime.date start_date = Datetime.date today - weekday today
            /\ Datetime.date end_date = Datetime.date start_date + 6).
Proof.
  assert (Hv : valid_datetime (make 9999 12 31 9 0 0 0))
    by (apply valid_datetimeb_sound; reflexivity).
  split; [exact Hv|]. split; [reflexivity|].
  intros H. destruct (H _ Hv) as (s & e & Hb & _). discriminate Hb.
Qed.

(** ** Floats: the error of a rounding, and the hours that the table keeps *)

Section DoubleFacts.
Import Double.
Local Open Scope Q_scope.

Lemma rint_near (x : Q) : x - (1 # 2) <= inject_Z (rint x) <= x + (1 # 2).
Proof.
  unfold rint.
  pose proof (Qfloor_le x) as Hlo. pose proof (Qlt_floor x) as Hhi.
  rewrite inject_Z_plus in Hhi. change (inject_Z 1) with 1 in Hhi.
  destruct (Qcompare (x - inject_Z (Qfloor x)) (1 # 2)) eqn:E.
  - apply Qeq_alt in E.
    destruct (Z.even (Qfloor x));
      [|rewrite inject_Z_plus; change (inject_Z 1) with 1]; lra.
  - apply Qlt_alt in E. lra.
  - apply Qgt_alt in E. rewrite inject_Z_plus. change (inject_Z 1) with 1. lra.
Qed.

Lemma rint_unique (x : Q) (z : Z) :
  inject_Z z - (1 # 2) < x -> x < inject_Z z + (1 # 2) -> rint x = z.
Proof.
  intros Hlo Hhi. destruct (rint_near x) as (H1 & H2).
  assert (Ha : inject_Z (rint x) < inject_Z (z + 1))
    by (rewrite inject_Z_plus; change (inject_Z 1) with 1; lra).
  assert (Hb : inject_Z z < inject_Z (rint x + 1))
    by (rewrite inject_Z_plus; change (inject_Z 1) with 1; lra).
  rewrite <- Zlt_Qlt in Ha, Hb. lia.
Qed.

Lemma rint_proper (x y : Q) : x == y -> rint x = rint y.
Proof.
  intros H. unfold rint. cbv zeta.
  assert (Hf : Qfloor x = Qfloor y) by (apply Qfloor_comp; exact H).
  rewrite Hf.
  assert (Hc : Qcompare (x - inject_Z (Qfloor y)) (1 # 2)
               = Qcompare (y - inject_Z (Qfloor y)) (1 # 2))
    by (apply Qcompare_comp; [rewrite H; reflexivity|reflexivity]).
  rewrite Hc. reflexivity.
Qed.

Lemma pow2_pos (e : Z) : 0 < 2 ^ e.
Proof. apply Qpower_0_lt. reflexivity. Qed.

Lemma pow2_succ (e : Z) : 2 ^ (e + 1) == 2 * 2 ^ e.
Proof.
  rewrite Qpower_plus by (intros H; discriminate H).
  change (2 ^ 1) with 2. ring.
Qed.

Lemma pow2_of_Z (a : Z) : (0 <= a)%Z -> inject_Z (2 ^ a) == 2 ^ a.
Proof. intros H. rewrite Zpower_Qpower by exact H. reflexivity. Qed.

Lemma ilog2_spec (x : Q) :
  ~ x == 0 -> 2 ^ ilog2 x <= Qabs x /\ Qabs x < 2 ^ (ilog2 x + 1).
Proof.
  intros Hx.
  destruct x as [p q]. unfold ilog2. cbn [Qnum Qden].
  assert (Hp : (0 < Z.abs p)%Z).
  { destruct (Z.eq_dec p 0) as [->|Hne]; [exfalso; apply Hx; reflexivity|lia]. }
  pose proof (Z.log2_spec (Z.abs p) Hp) as (Ha1 & Ha2).
  pose proof (Z.log2_spec (Zpos q) ltac:(lia)) as (Hb1 & Hb2).
  pose proof (Z.log2_nonneg (Z.abs p)) as Ha0.
  pose proof (Z.log2_nonneg (Zpos q)) as Hb0.
  set (a := Z.log2 (Z.abs p)) in *. set (b := Z.log2 (Zpos q)) in *.
  assert (Habs : Qabs (p # q) == inject_Z (Z.abs p) / inject_Z (Zpos q)).
  { unfold Qabs. rewrite (Qmake_Qdiv (Z.abs p) q). reflexivity. }
  assert (HA1 : 2 ^ a <= inject_Z (Z.abs p))
    by (rewrite <- pow2_of_Z by exact Ha0; rewrite <- Zle_Qle; exact Ha1).
  assert (HA2 : inject_Z (Z.abs p) < 2 * 2 ^ a).
  { rewrite <- pow2_succ, <- pow2_of_Z by lia. rewrite <- Zlt_Qlt.
    replace (a + 1)%Z with (Z.succ a) by lia. exact Ha2. }
  assert (HB1 : 2 ^ b <= inject_Z (Zpos q))
    by (rewrite <- pow2_of_Z by exact Hb0; rewrite <- Zle_Qle; exact Hb1).
  assert (HB2 : inject_Z (Zpos q) < 2 * 2 ^ b).
  { rewrite <- pow2_succ, <- pow2_of_Z by lia. rewrite <- Zlt_Qlt.
    replace (b + 1)%Z with (Z.succ b) by lia. exact Hb2. }
  assert (Hk : 2 ^ (a - b) == 2 ^ a / 2 ^ b)
    by (apply Qpower_minus; intros H; discriminate H).
  pose proof (pow2_pos a) as Pa. pose proof (pow2_pos b) as Pb.
  assert (Pq : 0 < inject_Z (Zpos q)) by (rewrite <- (Zlt_Qlt 0); lia).
  set (P := inject_Z (Z.abs p)) in *. set (D := inject_Z (Zpos q)) in *.
  set (A := 2 ^ a) in *. set (B := 2 ^ b) in *.
  assert (HX : P / D * D == P) by (field; lra).
  assert (HR : A / B * B == A) by (field; lra).
  set (R := A / B) in *. set (X := P / D) in *.
  clearbody R X.
  assert (PX : 0 < X) by nra.
  assert (PR : 0 < R) by nra.
  assert (Hup : X < 2 * R) by nra.
  assert (Hlow : R < 2 * X) by nra.
  destruct (Qle_bool (2 ^ (a - b)) (Qabs (p # q))) eqn:E.
  - apply Qle_bool_iff in E. split; [exact E|].
    rewrite pow2_succ, Hk, Habs. exact Hup.
  - assert (E' : Qabs (p # q) < 2 ^ (a - b)).
    { apply Qnot_le_lt. intros H. apply Qle_bool_iff in H. congruence. }
    replace (a - b - 1 + 1)%Z with (a - b)%Z by lia.
    split; [|exact E'].
    assert (Hh : 2 ^ (a - b) == 2 * 2 ^ (a - b - 1)).
    { rewrite <- pow2_succ. replace (a - b - 1 + 1)%Z with (a - b)%Z by lia.
      reflexivity. }
    rewrite Hk in Hh. rewrite Habs.
    set (T := 2 ^ (a - b - 1)) in *. clearbody T. clear - Hh Hlow. lra.
Qed.


Lemma round_error (x : Q) :
  ~ x == 0 -> Qabs (round x - x) <= Qabs x * (1 # 9007199254740992).
Proof.
  intros Hx. unfold round.
  destruct (Qeq_bool x 0) eqn:E0; [apply Qeq_bool_iff in E0; contradiction|].
  cbv zeta.
  destruct (ilog2_spec x Hx) as (Hlo & _).
  set (e := (ilog2 x - 52)%Z) in *.
  assert (He : 2 ^ ilog2 x == 4503599627370496 * 2 ^ e).
  { replace (ilog2 x) with (52 + e)%Z by (unfold e; lia).
    rewrite Qpower_plus by (intros H; discriminate H). 
    apply Qmult_comp; [vm_compute; reflexivity|reflexivity]. }
  pose proof (pow2_pos e) as PE.
  set (E := 2 ^ e) in *. clearbody E.
  assert (Hy : x / E * E == x) by (field; lra).
  pose proof (rint_near (x / E)) as (Hr1 & Hr2).
  set (y := x / E) in *. clearbody y.
  set (r := inject_Z (rint y)) in *. clearbody r.
  rewrite He in Hlo. clear He.
  set (W := Qabs x) in *. clearbody W.
  apply Qabs_Qle_condition. split; nra.
Qed.

Lemma hours_error (n : Z) :
  (n <> 0)%Z ->
  (- 86400000000 < n < 86400000000)%Z ->
  Qabs (div (true_divide n 1000000) 3600 - inject_Z n * (1 # 3600000000))
  <= 1 # 100000000000000.
Proof.
  intros Hn Hb. unfold div, true_divide.
  change (inject_Z n / inject_Z 1000000) with (inject_Z n * (1 # 1000000)).
  set (N := inject_Z n).
  assert (HN1 : - 86400000000 < N) by (unfold N, Qlt; cbn; lia).
  assert (HN2 : N < 86400000000) by (unfold N, Qlt; cbn; lia).
  assert (HN0 : ~ N == 0).
  { unfold N. intros H. apply Hn. apply (inject_Z_injective n 0). exact H. }
  clearbody N.
  set (x1 := N * (1 # 1000000)).
  assert (Hx1 : ~ x1 == 0) by (unfold x1; intros H; apply HN0; lra).
  pose proof (round_error x1 Hx1) as Ht.
  set (t := round x1) in *. clearbody t.
  pose proof (Qabs_nonneg x1) as Ha0.
  assert (Ha1 : Qabs x1 <= 86400)
    by (apply Qabs_Qle_condition; unfold x1; split; lra).
  assert (Ha2 : - Qabs x1 <= x1 <= Qabs x1)
    by (apply Qabs_Qle_condition; apply Qle_refl).
  assert (Ha3 : ~ Qabs x1 == 0).
  { intros H. apply Hx1. lra. }
  assert (Ha4 : x1 == Qabs x1 \/ x1 == - Qabs x1).
  { destruct (Qlt_le_dec x1 0) as [Hneg|Hpos].
    - right. rewrite Qabs_neg by lra. ring.
    - left. rewrite Qabs_pos by exact Hpos. reflexivity. }
  set (a := Qabs x1) in *. clearbody a.
  apply Qabs_Qle_condition in Ht.
  change (t / 3600) with (t * (1 # 3600)).
  assert (Ht0 : ~ t * (1 # 3600) == 0).
  { intros H. assert (t == 0) by lra. apply Ha3. destruct Ha4; lra. }
  pose proof (round_error (t * (1 # 3600)) Ht0) as Hh.
  set (h := round (t * (1 # 3600))) in *. clearbody h.
  assert (Hb2 : Qabs (t * (1 # 3600)) <= a * (1 # 1800))
    by (apply Qabs_Qle_condition; split; lra).
  set (b := Qabs (t * (1 # 3600))) in *. 
  pose proof (Qabs_nonneg (t * (1 # 3600))) as Hb0. fold b in Hb0.
  clearbody b.
  apply Qabs_Qle_condition in Hh.
  apply Qabs_Qle_condition. unfold x1 in *. split; lra.
Qed.

Lemma hours_exact_at_ties (j : Z) :
  (- 24 <= j <= 23)%Z ->
  rint (div (true_divide ((2 * j + 1) * 1800000000) 1000000) 3600)
  = rint (exact_hours ((2 * j + 1) * 1800000000)).
Proof.
  intros H.
  assert (Hc : (j = (-24) \/ j = (-23) \/ j = (-22) \/ j = (-21) \/ j = (-20) \/ j = (-19) \/ j = (-18) \/ j = (-17) \/ j = (-16) \/ j = (-15) \/ j = (-14) \/ j = (-13) \/ j = (-12) \/ j = (-11) \/ j = (-10) \/ j = (-9) \/ j = (-8) \/ j = (-7) \/ j = (-6) \/ j = (-5) \/ j = (-4) \/ j = (-3) \/ j = (-2) \/ j = (-1) \/ j = 0 \/ j = 1 \/ j = 2 \/ j = 3 \/ j = 4 \/ j = 5 \/ j = 6 \/ j = 7 \/ j = 8 \/ j = 9 \/ j = 10 \/ j = 11 \/ j = 12 \/ j = 13 \/ j = 14 \/ j = 15 \/ j = 16 \/ j = 17 \/ j = 18 \/ j = 19 \/ j = 20 \/ j = 21 \/ j = 22 \/ j = 23)%Z) by lia.
  repeat (destruct Hc as [->|Hc]; [vm_compute; reflexivity|]).
  subst j. vm_compute. reflexivity.
Qed.

Lemma rint_exact_hours_near (n : Z) :
  ((2 * rint (exact_hours n) - 1) * 1800000000 <= n
   <= (2 * rint (exact_hours n) + 1) * 1800000000)%Z.
Proof.
  pose proof (rint_near (exact_hours n)) as (H1 & H2).
  set (z := rint (exact_hours n)) in *. clearbody z.
  unfold exact_hours in *.
  assert (Q1 : inject_Z ((2 * z + -1) * 1800000000) <= inject_Z n).
  { rewrite inject_Z_mult, inject_Z_plus, inject_Z_mult.
    change (inject_Z 2) with 2. change (inject_Z (-1)) with (-1).
    change (inject_Z 1800000000) with 1800000000. lra. }
  assert (Q2 : inject_Z n <= inject_Z ((2 * z + 1) * 1800000000)).
  { rewrite inject_Z_mult, inject_Z_plus, inject_Z_mult.
    change (inject_Z 2) with 2. change (inject_Z 1) with 1.
    change (inject_Z 1800000000) with 1800000000. lra. }
  rewrite <- Zle_Qle in Q1, Q2. lia.
Qed.

Lemma stored_hours_exact (n : Z) :
  (- 86400000000 < n < 86400000000)%Z ->
  rint (div (true_divide n 1000000) 3600) = rint (exact_hours n).
Proof.
  intros Hb.
  destruct (Z.eq_dec n 0) as [->|Hn]; [vm_compute; reflexivity|].
  pose proof (rint_exact_hours_near n) as (Hlo & Hhi).
  remember (rint (exact_hours n)) as z eqn:Ez.
  destruct (Z.eq_dec n ((2 * z - 1) * 1800000000)) as [E1|N1].
  { assert (Hj : n = ((2 * (z - 1) + 1) * 1800000000)%Z) by lia.
    rewrite Ez. clear Ez. rewrite Hj. apply hours_exact_at_ties. lia. }
  destruct (Z.eq_dec n ((2 * z + 1) * 1800000000)) as [E2|N2].
  { rewrite Ez. clear Ez. rewrite E2. apply hours_exact_at_ties. lia. }
  clear Ez.
  pose proof (hours_error n Hn Hb) as He.
  apply Qabs_Qle_condition in He.
  apply rint_unique.
  - assert (Q1 : inject_Z ((2 * z + -1) * 1800000000 + 1) <= inject_Z n)
      by (rewrite <- Zle_Qle; lia).
    rewrite inject_Z_plus, inject_Z_mult, inject_Z_plus, inject_Z_mult in Q1.
    change (inject_Z 2) with 2 in Q1. change (inject_Z 1) with 1 in Q1.
    change (inject_Z (-1)) with (-1) in Q1.
    change (inject_Z 1800000000) with 1800000000 in Q1.
    lra.
  - assert (Q2 : inject_Z n <= inject_Z ((2 * z + 1) * 1800000000 + -1))
      by (rewrite <- Zle_Qle; lia).
    rewrite inject_Z_plus, inject_Z_mult, inject_Z_plus, inject_Z_mult in Q2.
    change (inject_Z 2) with 2 in Q2. change (inject_Z 1) with 1 in Q2.
    change (inject_Z (-1)) with (-1) in Q2.
    change (inject_Z 1800000000) with 1800000000 in Q2.
    lra.
Qed.

End DoubleFacts.

(** ** The daily aggregation *)

Lemma create_daily_attendance_two (s : Session) (new_id : UUID) (now : datetime)
    (user_id : UUID) (full_name : string) (attend_id : Z) (date : datetime)
    (first_ second_ : Attendance) (rest : list Attendance) :
  filter (on_day user_id date) (attendance s) = first_ :: second_ :: rest ->
  create_daily_attendance new_id now user_id full_name attend_id date s
  = (Ok {| da_daily_attendance_hours :=
             integer_column
               (hours_between (att_created_at first_) (att_created_at second_));
           da_full_name := Some full_name;
           da_attend_id := Some attend_id;
           da_id := new_id;
           da_user_id := user_id;
           da_created_at := now |},
     {| attendance := attendance s;
        dailyattendance :=
          dailyattendance s
          ++ [{| da_daily_attendance_hours :=
                   integer_column
                     (hours_between (att_created_at first_)
                        (att_created_at second_));
                 da_full_name := Some full_name;
                 da_attend_id := Some attend_id;
                 da_id := new_id;
                 da_user_id := user_id;
                 da_created_at := now |}];
        weeklyattendance := weeklyattendance s |}).
Proof.
  intros H.
  unfold create_daily_attendance, bind, exec_all_attendance.
  rewrite H. reflexivity.
Qed.

Lemma hours_between_microseconds (check_in_time check_out_time : datetime) :
  hours_between check_in_time check_out_time
  = Double.div
      (Double.true_divide
         (to_microseconds check_out_time - to_microseconds check_in_time)
         1000000)
      3600.
Proof.
  unfold hours_between, total_seconds. rewrite sub_total. reflexivity.
Qed.

Lemma exact_hours_seconds (check_in_time check_out_time : datetime) :
  (seconds_between check_in_time check_out_time / 3600
   == exact_hours (to_microseconds check_out_time
                   - to_microseconds check_in_time))%Q.
Proof.
  unfold seconds_between, exact_hours, Qeq, Qdiv, Qmult, Qinv. cbn. lia.
Qed.

Lemma same_day_gap (d1 d2 : datetime) :
  valid_datetime d1 -> valid_datetime d2 ->
  Datetime.date d1 = Datetime.date d2 ->
  - 86400000000 < to_microseconds d2 - to_microseconds d1 < 86400000000.
Proof.
  intros (Ho1 & Hs1 & Hu1) (Ho2 & Hs2 & Hu2) Hd.
  unfold Datetime.date in Hd. unfold to_microseconds. lia.
Qed.

Lemma first_two_on_day (s : Session) (user_id : UUID) (date : datetime)
    (first_ second_ : Attendance) (rest : list Attendance) :
  filter (on_day user_id date) (attendance s) = first_ :: second_ :: rest ->
  Datetime.date (att_created_at first_) = Datetime.date (att_created_at second_).
Proof.
  intros H.
  assert (Hin1 : In first_ (filter (on_day user_id date) (attendance s)))
    by (rewrite H; left; reflexivity).
  assert (Hin2 : In second_ (filter (on_day user_id date) (attendance s)))
    by (rewrite H; right; left; reflexivity).
  apply filter_In in Hin1. destruct Hin1 as (_ & Hd1).
  apply filter_In in Hin2. destruct Hin2 as (_ & Hd2).
  unfold on_day in Hd1, Hd2.
  apply andb_true_iff in Hd1. destruct Hd1 as (_ & Hd1). apply Z.eqb_eq in Hd1.
  apply andb_true_iff in Hd2. destruct Hd2 as (_ & Hd2). apply Z.eqb_eq in Hd2.
  congruence.
Qed.

(** The table keeps, of the float computed for two events of one day, the
    integer nearest to the exact quotient: the two roundings of the float
    are too small to move it across a half. *)
Lemma stored_hours (check_in_time check_out_time : datetime) :
  valid_datetime check_in_time -> valid_datetime check_out_time ->
  Datetime.date check_in_time = Datetime.date check_out_time ->
  integer_column (hours_between check_in_time check_out_time)
  = inject_Z
      (Double.rint
         (exact_hours (to_microseconds check_out_time
                       - to_microseconds check_in_time))).
Proof.
  intros Hv1 Hv2 Hd. unfold integer_column. f_equal.
  rewrite hours_between_microseconds.
  apply stored_hours_exact. apply same_day_gap; assumption.
Qed.

Lemma rint_exact_hours_zero (n : Z) :
  Double.rint (exact_hours n) = 0 <-> - 1800000000 <= n <= 1800000000.
Proof.
  pose proof (rint_exact_hours_near n) as Hn. split.
  - intros E. rewrite E in Hn. lia.
  - intros Hb.
    destruct (Z.eq_dec n 1800000000) as [->|N1]; [vm_compute; reflexivity|].
    destruct (Z.eq_dec n (- 1800000000)) as [->|N2]; [vm_compute; reflexivity|].
    lia.
Qed.

Lemma rint_exact_hours_negative (n : Z) :
  Double.rint (exact_hours n) < 0 <-> n < - 1800000000.
Proof.
  pose proof (rint_exact_hours_near n) as Hn. split.
  - intros E.
    destruct (Z.eq_dec n (- 1800000000)) as [->|N2];
      [vm_compute in E; discriminate E|lia].
  - intros Hb. lia.
Qed.

Lemma ltb_to_microseconds (d1 d2 : datetime) :
  valid_datetime d1 -> valid_datetime d2 ->
  Datetime.ltb d1 d2 = true -> to_microseconds d1 < to_microseconds d2.
Proof.
  intros (Ho1 & Hs1 & Hu1) (Ho2 & Hs2 & Hu2).
  unfold Datetime.ltb, to_microseconds.
  repeat rewrite ?orb_true_iff, ?andb_true_iff, ?Z.ltb_lt, ?Z.eqb_eq.
  intros [H | [H1 [H | [H2 H3]]]]; lia.
Qed.


(** C1: with fewer than two events of the user on the date, the call raises
    the error for insufficient records and leaves the session as it was: no
    daily row is written. *)
Theorem create_daily_attendance_insufficient (s : Session) (new_id : UUID)
    (now : datetime) (user_id : UUID) (full_name : string) (attend_id : Z)
    (date : datetime) :
  (List.length (filter (on_day user_id date) (attendance s)) < 2)%nat ->
  create_daily_attendance new_id now user_id full_name attend_id date s
  = (Raise (ValueError "Insufficient attendance records for today"), s).
Proof.
  intros H.
  unfold create_daily_attendance, bind, exec_all_attendance.
  apply Nat.ltb_lt in H. rewrite H. reflexivity.
Qed.

Lemma create_daily_attendance_insufficient_witness :
  create_daily_attendance 50%N Sample.wednesday Sample.alice "Alice" 12
    Sample.wednesday Sample.one_event
  = (Raise (ValueError "Insufficient attendance records for today"), Sample.one_event)
  /\ create_daily_attendance 50%N Sample.wednesday Sample.alice "Alice" 12
       Sample.wednesday Sample.empty
     = (Raise (ValueError "Insufficient attendance records for today"), Sample.empty).
Proof.
  split; apply create_daily_attendance_insufficient; vm_compute; lia.
Defined.

(** C2, amended: with two events or more on the day, the call returns the
    daily row it inserts, and the hours of that row are the integer nearest
    to the seconds elapsed between the first and the second event returned,
    divided by 3600, a tie going to the even integer: the float that the
    call computes is kept by a column of integers.  When the second event
    is 5 hours 30 minutes after the first, the hours are 6. *)
Theorem daily_hours_are_elapsed_hours_rounded (s : Session) (new_id : UUID)
    (now : datetime) (user_id : UUID) (full_name : string) (attend_id : Z)
    (date : datetime) (first_ second_ : Attendance) (rest : list Attendance) :
  filter (on_day user_id date) (attendance s) = first_ :: second_ :: rest ->
  valid_datetime (att_created_at first_) ->
  valid_datetime (att_created_at second_) ->
  exists row,
    create_daily_attendance new_id now user_id full_name attend_id date s
    = (Ok row,
       {| attendance := attendance s;
          dailyattendance := dailyattendance s ++ [row];
          weeklyattendance := weeklyattendance s |})
    /\ da_daily_attendance_hours row
       = inject_Z
           (Double.rint
              (seconds_between (att_created_at first_) (att_created_at second_)
               / 3600))
    /\ (seconds_between (att_created_at first_) (att_created_at second_) / 3600
        - (1 # 2)
        <= da_daily_attendance_hours row
        <= seconds_between (att_created_at first_) (att_created_at second_) / 3600
           + (1 # 2))%Q
    /\ (Datetime.add (att_created_at first_) (new_timedelta 0 (5 * 3600 + 30 * 60) 0)
        = Ok (att_created_at second_) ->
        da_daily_attendance_hours row = 6%Q).
Proof.
  intros H Hv1 Hv2.
  pose proof (first_two_on_day _ _ _ _ _ _ H) as Hd.
  eexists. split; [apply (create_daily_attendance_two _ _ _ _ _ _ _ _ _ _ H)|].
  cbn [da_daily_attendance_hours].
  rewrite (stored_hours _ _ Hv1 Hv2 Hd).
  rewrite <- (rint_proper _ _ (exact_hours_seconds _ _)).
  split; [reflexivity|]. split; [apply rint_near|].
  intros Hadd. apply add_total in Hadd.
  rewrite new_timedelta_total in Hadd.
  unfold seconds_between.
  replace (to_microseconds (att_created_at second_)
           - to_microseconds (att_created_at first_)) with 19800000000 by lia.
  vm_compute. reflexivity.
Qed.

Lemma daily_hours_are_elapsed_hours_rounded_witness :
  exists row,
    create_daily_attendance 50%N Sample.wednesday Sample.alice "Alice" 12
      Sample.wednesday Sample.regular_day
    = (Ok row,
       {| attendance := attendance Sample.regular_day;
          dailyattendance := [row];
          weeklyattendance := [] |})
    /\ da_daily_attendance_hours row = 6%Q.
Proof.
  destruct (daily_hours_are_elapsed_hours_rounded Sample.regular_day 50%N
              Sample.wednesday Sample.alice "Alice" 12 Sample.wednesday
              Sample.at_9_00 Sample.at_14_30 [] eq_refl)
    as (row & Hcall & _ & _ & Hhalf).
  - apply valid_datetimeb_sound; reflexivity.
  - apply valid_datetimeb_sound; reflexivity.
  - exists row. split; [exact Hcall|]. apply Hhalf. reflexivity.
Defined.

(** C2 as stated fails: for a check-in at 9:00 and a check-out at 14:30, 5
    hours 30 minutes later, the row inserted and returned holds 6 hours,
    not 5.5. *)
Lemma daily_hours_5h30_stored_as_6 :
  exists row t,
    create_daily_attendance 50%N Sample.wednesday Sample.alice "Alice" 12
      Sample.wednesday Sample.regular_day = (Ok row, t)
    /\ dailyattendance t = [row]
    /\ (seconds_between (att_created_at Sample.at_9_00)
          (att_created_at Sample.at_14_30) / 3600 == 11 # 2)%Q
    /\ da_daily_attendance_hours row = 6%Q
    /\ ~ (da_daily_attendance_hours row == 11 # 2)%Q.
Proof.
  do 2 eexists.
  split; [apply (create_daily_attendance_two Sample.regular_day _ _ _ _ _ _
                   Sample.at_9_00 Sample.at_14_30 []); reflexivity|].
  split; [reflexivity|].
  split; [vm_compute; reflexivity|].
  split; [vm_compute; reflexivity|].
  cbn [da_daily_attendance_hours]. intros H. vm_compute in H. discriminate H.
Qed.

(** C7, amended: with two events or more on the day, the call takes as
    check-in and check-out the first two events in the order in which the
    query returns them, which no [order_by] fixes, and the hours do not
    depend on the events returned after these two. *)
Theorem daily_uses_first_two_returned (s s' : Session) (new_id : UUID)
    (now : datetime) (user_id : UUID) (full_name : string) (attend_id : Z)
    (date : datetime) (first_ second_ : Attendance) (rest rest' : list Attendance) :
  filter (on_day user_id date) (attendance s) = first_ :: second_ :: rest ->
  filter (on_day user_id date) (attendance s') = first_ :: second_ :: rest' ->
  exists row t row' t',
    create_daily_attendance new_id now user_id full_name attend_id date s = (Ok row, t)
    /\ create_daily_attendance new_id now user_id full_name attend_id date s' = (Ok row', t')
    /\ da_daily_attendance_hours row
       = integer_column
           (hours_between (att_created_at first_) (att_created_at second_))
    /\ da_daily_attendance_hours row' = da_daily_attendance_hours row.
Proof.
  intros H H'.
  do 4 eexists.
  split; [apply (create_daily_attendance_two _ _ _ _ _ _ _ _ _ _ H)|].
  split; [apply (create_daily_attendance_two _ _ _ _ _ _ _ _ _ _ H')|].
  split; reflexivity.
Qed.

Lemma daily_uses_first_two_returned_witness :
  exists row t row' t',
    create_daily_attendance 50%N Sample.wednesday Sample.alice "Alice" 12
      Sample.wednesday Sample.regular_day = (Ok row, t)
    /\ create_daily_attendance 50%N Sample.wednesday Sample.alice "Alice" 12
         Sample.wednesday Sample.busy_day = (Ok row', t')
    /\ da_daily_attendance_hours row
       = integer_column
           (hours_between (att_created_at Sample.at_9_00)
              (att_created_at Sample.at_14_30))
    /\ da_daily_attendance_hours row' = da_daily_attendance_hours row.
Proof.
  apply (daily_uses_first_two_returned Sample.regular_day Sample.busy_day 50%N
           Sample.wednesday Sample.alice "Alice" 12 Sample.wednesday
           Sample.at_9_00 Sample.at_14_30 [] [Sample.at_18_00]);
    reflexivity.
Defined.

(** C7 as stated fails when the query returns the later event first: in
    creation order the day starts at 9:00 and the next event is at 10:00,
    one hour later, but the call takes 10:00 as the check-in and 9:00 as the
    check-out. *)
Lemma daily_not_in_creation_order :
  exists row t,
    create_daily_attendance 50%N Sample.wednesday Sample.alice "Alice" 12
      Sample.wednesday Sample.reversed_day = (Ok row, t)
    /\ find_events Sample.alice Sample.wednesday Sample.reversed_day
       = [Sample.at_9_00; Sample.at_10_00]
    /\ (hours_between (att_created_at Sample.at_9_00) (att_created_at Sample.at_10_00)
        == 1)%Q
    /\ (da_daily_attendance_hours row == -1)%Q
    /\ ~ (da_daily_attendance_hours row
          == hours_between (att_created_at Sample.at_9_00)
               (att_created_at Sample.at_10_00))%Q.
Proof.
  do 2 eexists.
  split; [apply (create_daily_attendance_two Sample.reversed_day _ _ _ _ _ _
                   Sample.at_10_00 Sample.at_9_00 []); reflexivity|].
  split; [reflexivity|].
  split; [vm_compute; reflexivity|].
  split; [vm_compute; reflexivity|].
  cbn [da_daily_attendance_hours]. intros H. vm_compute in H. discriminate H.
Qed.

(** C10, amended: the call compares the two events it uses in no way: when
    the second event returned was created before the first, the call still
    returns, and the hours of the daily row it inserts are not positive:
    they are negative when the second event is more than 30 minutes before
    the first, and 0 otherwise. *)
Theorem daily_hours_not_positive_when_out_of_order (s : Session) (new_id : UUID)
    (now : datetime) (user_id : UUID) (full_name : string) (attend_id : Z)
    (date : datetime) (first_ second_ : Attendance) (rest : list Attendance) :
  filter (on_day user_id date) (attendance s) = first_ :: second_ :: rest ->
  valid_datetime (att_created_at first_) ->
  valid_datetime (att_created_at second_) ->
  Datetime.ltb (att_created_at second_) (att_created_at first_) = true ->
  exists row,
    create_daily_attendance new_id now user_id full_name attend_id date s
    = (Ok row,
       {| attendance := attendance s;
          dailyattendance := dailyattendance s ++ [row];
          weeklyattendance := weeklyattendance s |})
    /\ (da_daily_attendance_hours row <= 0)%Q
    /\ ((da_daily_attendance_hours row < 0)%Q
        <-> 1800000000
            < to_microseconds (att_created_at first_)
              - to_microseconds (att_created_at second_))
    /\ ((da_daily_attendance_hours row == 0)%Q
        <-> to_microseconds (att_created_at first_)
            - to_microseconds (att_created_at second_) <= 1800000000).
Proof.
  intros H Hv1 Hv2 Hlt.
  pose proof (first_two_on_day _ _ _ _ _ _ H) as Hd.
  pose proof (ltb_to_microseconds _ _ Hv2 Hv1 Hlt) as Hneg.
  eexists. split; [apply (create_daily_attendance_two _ _ _ _ _ _ _ _ _ _ H)|].
  cbn [da_daily_attendance_hours].
  rewrite (stored_hours _ _ Hv1 Hv2 Hd).
  set (n := to_microseconds (att_created_at second_)
            - to_microseconds (att_created_at first_)) in *.
  pose proof (rint_exact_hours_near n) as Hn.
  pose proof (rint_exact_hours_negative n) as Hk.
  pose proof (rint_exact_hours_zero n) as Hz.
  change 0%Q with (inject_Z 0).
  rewrite <- Zle_Qle, <- Zlt_Qlt, inject_Z_injective.
  repeat split; lia.
Qed.

Lemma daily_hours_not_positive_when_out_of_order_witness :
  exists row,
    create_daily_attendance 50%N Sample.wednesday Sample.alice "Alice" 12
      Sample.wednesday Sample.reversed_day
    = (Ok row,
       {| attendance := attendance Sample.reversed_day;
          dailyattendance := [row];
          weeklyattendance := [] |})
    /\ (da_daily_attendance_hours row < 0)%Q.
Proof.
  destruct (daily_hours_not_positive_when_out_of_order Sample.reversed_day 50%N
              Sample.wednesday Sample.alice "Alice" 12 Sample.wednesday
              Sample.at_10_00 Sample.at_9_00 [])
    as (row & Hcall & _ & Hneg & _).
  - reflexivity.
  - apply valid_datetimeb_sound; reflexivity.
  - apply valid_datetimeb_sound; reflexivity.
  - reflexivity.
  - exists row. split; [exact Hcall|]. apply Hneg. vm_compute. reflexivity.
Defined.

(** C10 as stated fails when the two events are close: the query returns
    10:00 and then 9:50, the call computes minus one sixth of an hour, and
    the row it inserts holds 0 hours, which is not negative. *)
Lemma daily_hours_zero_when_out_of_order :
  exists row t,
    create_daily_attendance 50%N Sample.wednesday Sample.alice "Alice" 12
      Sample.wednesday SampleDay.ten_minutes_back = (Ok row, t)
    /\ Datetime.ltb (att_created_at SampleDay.at_9_50)
         (att_created_at Sample.at_10_00) = true
    /\ dailyattendance t = [row]
    /\ da_daily_attendance_hours row = 0%Q
    /\ ~ (da_daily_attendance_hours row < 0)%Q.
Proof.
  do 2 eexists.
  split; [apply (create_daily_attendance_two SampleDay.ten_minutes_back _ _ _ _ _
                   _ Sample.at_10_00 SampleDay.at_9_50 []); reflexivity|].
  split; [reflexivity|].
  split; [reflexivity|].
  split; [vm_compute; reflexivity|].
  cbn [da_daily_attendance_hours]. intros H. vm_compute in H. discriminate H.
Qed.

(** ** The weekly aggregation *)

Lemma weekly_raises (s : Session) (new_id : UUID) (now : datetime)
    (user_id : UUID) (full_name : string) (attend_id : Z)
    (daily_attendance_hours : Z) (date : datetime) (e : exn) :
  week_bounds date = Raise e ->
  create_weekly_attendance_or_update new_id now user_id full_name attend_id
    daily_attendance_hours date s
  = (Raise e, s).
Proof.
  intros H. unfold create_weekly_attendance_or_update, bind, lift.
  rewrite H. reflexivity.
Qed.

Lemma weekly_updates (s : Session) (new_id : UUID) (now : datetime)
    (user_id : UUID) (full_name : string) (attend_id : Z)
    (daily_attendance_hours : Z) (date : datetime)
    (bounds : datetime * datetime) (found : WeeklyAttendance) :
  week_bounds date = Ok bounds ->
  find (covers user_id date) (weeklyattendance s) = Some found ->
  create_weekly_attendance_or_update new_id now user_id full_name attend_id
    daily_attendance_hours date s
  = (Ok (set_weekly_attendance_hours found
           (wa_weekly_attendance_hours found + daily_attendance_hours)),
     {| attendance := attendance s;
        dailyattendance := dailyattendance s;
        weeklyattendance :=
          map (bump (wa_id found)
                 (wa_weekly_attendance_hours found + daily_attendance_hours))
              (weeklyattendance s) |}).
Proof.
  intros Hb Hf.
  unfold create_weekly_attendance_or_update, bind, lift, exec_first_weekly.
  rewrite Hb, Hf. reflexivity.
Qed.

Lemma weekly_inserts (s : Session) (new_id : UUID) (now : datetime)
    (user_id : UUID) (full_name : string) (attend_id : Z)
    (daily_attendance_hours : Z) (date start_date end_date : datetime) :
  week_bounds date = Ok (start_date, end_date) ->
  find (covers user_id date) (weeklyattendance s) = None ->
  create_weekly_attendance_or_update new_id now user_id full_name attend_id
    daily_attendance_hours date s
  = (Ok {| wa_weekly_attendance_hours := daily_attendance_hours;
           wa_start_date := start_date;
           wa_end_date := end_date;
           wa_full_name := Some full_name;
           wa_attend_id := Some attend_id;
           wa_id := new_id;
           wa_user_id := user_id;
           wa_created_at := now |},
     {| attendance := attendance s;
        dailyattendance := dailyattendance s;
        weeklyattendance :=
          weeklyattendance s
          ++ [{| wa_weekly_attendance_hours := daily_attendance_hours;
                 wa_start_date := start_date;
                 wa_end_date := end_date;
                 wa_full_name := Some full_name;
                 wa_attend_id := Some attend_id;
                 wa_id := new_id;
                 wa_user_id := user_id;
                 wa_created_at := now |}] |}).
Proof.
  intros Hb Hf.
  unfold create_weekly_attendance_or_update, bind, lift, exec_first_weekly.
  rewrite Hb, Hf. reflexivity.
Qed.

Lemma covers_iff (user_id : UUID) (date : datetime) (w : WeeklyAttendance) :
  covers user_id date w = true
  <-> wa_user_id w = user_id
      /\ Datetime.date (wa_start_date w) <= Datetime.date date
         <= Datetime.date (wa_end_date w).
Proof.
  unfold covers. rewrite !andb_true_iff, N.eqb_eq, Z.leb_le, Z.geb_le. tauto.
Qed.

Lemma covers_bump (user_id : UUID) (date : datetime) (id : UUID) (hours : Z)
    (r : WeeklyAttendance) :
  covers user_id date (bump id hours r) = covers user_id date r.
Proof. unfold bump. destruct (N.eqb (wa_id r) id); reflexivity. Qed.

Lemma aligned_bump (id : UUID) (hours : Z) (r : WeeklyAttendance) :
  aligned r -> aligned (bump id hours r).
Proof. unfold bump. destruct (N.eqb (wa_id r) id); intros H; exact H. Qed.

Lemma filter_covers_bump (user_id : UUID) (date : datetime) (id : UUID)
    (hours : Z) (l : list WeeklyAttendance) :
  filter (covers user_id date) (map (bump id hours) l)
  = map (bump id hours) (filter (covers user_id date) l).
Proof.
  induction l as [|r l IH]; [reflexivity|].
  cbn [map filter]. rewrite covers_bump.
  destruct (covers user_id date r); cbn [map]; rewrite IH; reflexivity.
Qed.

Lemma aligned_covers_monday (user_id : UUID) (date : datetime)
    (w : WeeklyAttendance) :
  aligned w ->
  covers user_id date w = true ->
  Datetime.date (wa_start_date w) = monday_of date.
Proof.
  intros (Hm & He) Hc. apply covers_iff in Hc. destruct Hc as (_ & Hlo & Hhi).
  unfold monday_of, weekday, Datetime.date in *.
  pose proof (Z.div_mod (dt_ordinal (wa_start_date w) + 6) 7 ltac:(lia)) as E1.
  pose proof (Z.div_mod (dt_ordinal date + 6) 7 ltac:(lia)) as E2.
  pose proof (Z.mod_pos_bound (dt_ordinal date + 6) 7 ltac:(lia)) as B2.
  lia.
Qed.

Lemma monday_covers (user_id : UUID) (date : datetime) (w : WeeklyAttendance) :
  wa_user_id w = user_id ->
  Datetime.date (wa_start_date w) = monday_of date ->
  Datetime.date (wa_end_date w) = monday_of date + 6 ->
  covers user_id date w = true.
Proof.
  intros Hu Hs He. apply covers_iff. split; [exact Hu|].
  rewrite Hs, He. pose proof (weekday_range date). unfold monday_of. lia.
Qed.

Lemma aligned_covers_same_week (user_id : UUID) (date date' : datetime)
    (w : WeeklyAttendance) :
  aligned w ->
  monday_of date = monday_of date' ->
  covers user_id date w = covers user_id date' w.
Proof.
  intros Ha Hm.
  destruct (covers user_id date w) eqn:E; destruct (covers user_id date' w) eqn:E';
    try reflexivity.
  - pose proof (aligned_covers_monday _ _ _ Ha E) as Hs.
    apply covers_iff in E. destruct E as (Hu & _).
    destruct Ha as (_ & He).
    rewrite (monday_covers user_id date' w) in E'; [discriminate| | |]; congruence.
  - pose proof (aligned_covers_monday _ _ _ Ha E') as Hs.
    apply covers_iff in E'. destruct E' as (Hu & _).
    destruct Ha as (_ & He).
    rewrite (monday_covers user_id date w) in E; [discriminate| | |]; congruence.
Qed.

Lemma filter_nil_iff {A : Type} (p : A -> bool) (l : list A) :
  filter p l = [] <-> (forall x, In x l -> p x = false).
Proof.
  induction l as [|a l IH]; cbn.
  - split; [intros _ x []|reflexivity].
  - destruct (p a) eqn:E.
    + split; [discriminate|]. intros H. rewrite (H a) in E by (left; reflexivity).
      discriminate.
    + rewrite IH. split.
      * intros H x [<-|Hx]; [exact E|apply H; exact Hx].
      * intros H x Hx. apply H. right. exact Hx.
Qed.

Lemma find_none_iff {A : Type} (p : A -> bool) (l : list A) :
  find p l = None <-> filter p l = [].
Proof.
  induction l as [|a l IH]; cbn; [tauto|].
  destruct (p a); [split; discriminate|exact IH].
Qed.

Lemma find_app_skip {A : Type} (p : A -> bool) (l l' : list A) :
  filter p l = [] -> find p (l ++ l') = find p l'.
Proof.
  induction l as [|a l IH]; cbn; [reflexivity|].
  destruct (p a); [discriminate|exact IH].
Qed.

Lemma short_list_eq {A : Type} (l : list A) (x y : A) :
  (List.length l <= 1)%nat -> In x l -> In y l -> x = y.
Proof.
  destruct l as [|a [|b l]]; cbn; intros Hl Hx Hy.
  - destruct Hx.
  - destruct Hx as [<-|[]], Hy as [<-|[]]. reflexivity.
  - lia.
Qed.

Lemma new_bucket_aligned (date : datetime) (start_date end_date : datetime)
    (w : WeeklyAttendance) :
  valid_datetime date ->
  week_bounds date = Ok (start_date, end_date) ->
  wa_start_date w = start_date ->
  wa_end_date w = end_date ->
  aligned w
  /\ Datetime.date (wa_start_date w) = monday_of date
  /\ Datetime.date (wa_end_date w) = monday_of date + 6.
Proof.
  intros Hv Hb Hs He.
  destruct (week_bounds_inv _ _ _ Hv Hb) as (-> & -> & _).
  unfold aligned. rewrite Hs, He.
  split; [split|split]; try reflexivity. apply monday_is_monday.
Qed.

Lemma well_formed_step (s : Session) (new_id : UUID) (now : datetime)
    (user_id : UUID) (full_name : string) (attend_id : Z)
    (daily_attendance_hours : Z) (date : datetime) :
  well_formed s ->
  valid_datetime date ->
  well_formed
    (snd (create_weekly_attendance_or_update new_id now user_id full_name
            attend_id daily_attendance_hours date s)).
Proof.
  intros (Hal & Hone) Hv.
  destruct (week_bounds date) as [[start_date end_date]|e] eqn:Hb;
    [|rewrite (weekly_raises _ _ _ _ _ _ _ _ _ Hb); split; assumption].
  destruct (find (covers user_id date) (weeklyattendance s)) as [found|] eqn:Hf.
  - rewrite (weekly_updates _ _ _ _ _ _ _ _ _ _ Hb Hf). cbn [snd]. split.
    + cbn [weeklyattendance]. apply Forall_map.
      eapply Forall_impl; [|exact Hal]. intros r. apply aligned_bump.
    + intros u d. unfold covering. cbn [weeklyattendance].
      rewrite filter_covers_bump, length_map. apply Hone.
  - rewrite (weekly_inserts _ _ _ _ _ _ _ _ _ _ Hb Hf). cbn [snd].
    match goal with
    | |- well_formed {| weeklyattendance := _ ++ [?w] |} => set (new := w)
    end.
    destruct (new_bucket_aligned date start_date end_date new Hv Hb eq_refl eq_refl)
      as (Hnew & Hns & Hne).
    split.
    + cbn [weeklyattendance]. apply Forall_app. split; [exact Hal|].
      constructor; [exact Hnew|constructor].
    + intros u d. unfold covering. cbn [weeklyattendance].
      rewrite filter_app, length_app. cbn [filter].
      destruct (covers u d new) eqn:Hc; cbn [List.length].
      * assert (Hold : filter (covers u d) (weeklyattendance s) = []).
        { apply filter_nil_iff. intros r Hr.
          pose proof (aligned_covers_monday _ _ _ Hnew Hc) as Hm.
          apply covers_iff in Hc. destruct Hc as (Hu & _). cbn in Hu. subst u.
          rewrite Forall_forall in Hal.
          rewrite (aligned_covers_same_week user_id d date r (Hal r Hr))
            by congruence.
          apply find_none_iff in Hf.
          rewrite filter_nil_iff in Hf. apply Hf. exact Hr. }
        rewrite Hold. cbn. lia.
      * pose proof (Hone u d) as H1. unfold covering in H1. lia.
Qed.

Lemma reachable_well_formed (s : Session) : reachable s -> well_formed s.
Proof.
  induction 1 as [s Hnil|s new_id now u fn aid h d Hr IH Hv].
  - split.
    + rewrite Hnil. constructor.
    + intros u d. unfold covering. rewrite Hnil. cbn. lia.
  - apply well_formed_step; assumption.
Qed.

(** C9: when the call has computed the week and the lookup returns a row,
    the row returned by the call is that row with the daily hours added to
    its weekly hours: its id, user, name, attendance id, start and end dates
    and creation time are those of the row found, not those computed or
    passed in; in the table only the hours of the row with that key differ,
    and the other tables are untouched. *)
Theorem weekly_update_changes_hours_only (s : Session) (new_id : UUID)
    (now : datetime) (user_id : UUID) (full_name : string) (attend_id : Z)
    (daily_attendance_hours : Z) (date : datetime)
    (bounds : datetime * datetime) (found : WeeklyAttendance) :
  week_bounds date = Ok bounds ->
  find (covers user_id date) (weeklyattendance s) = Some found ->
  exists row t,
    create_weekly_attendance_or_update new_id now user_id full_name attend_id
      daily_attendance_hours date s = (Ok row, t)
    /\ wa_weekly_attendance_hours row
       = wa_weekly_attendance_hours found + daily_attendance_hours
    /\ wa_id row = wa_id found
    /\ wa_user_id row = wa_user_id found
    /\ wa_full_name row = wa_full_name found
    /\ wa_attend_id row = wa_attend_id found
    /\ wa_start_date row = wa_start_date found
    /\ wa_end_date row = wa_end_date found
    /\ wa_created_at row = wa_created_at found
    /\ attendance t = attendance s
    /\ dailyattendance t = dailyattendance s
    /\ List.length (weeklyattendance t) = List.length (weeklyattendance s)
    /\ In row (weeklyattendance t)
    /\ (forall i r, nth_error (weeklyattendance s) i = Some r ->
          exists r', nth_error (weeklyattendance t) i = Some r'
            /\ r' = set_weekly_attendance_hours r (wa_weekly_attendance_hours r')
            /\ (wa_id r <> wa_id found -> r' = r)).
Proof.
  intros Hb Hf.
  do 2 eexists. split; [apply (weekly_updates _ _ _ _ _ _ _ _ _ _ Hb Hf)|].
  cbn [set_weekly_attendance_hours wa_weekly_attendance_hours wa_id wa_user_id
       wa_full_name wa_attend_id wa_start_date wa_end_date wa_created_at
       attendance dailyattendance weeklyattendance].
  repeat (split; [reflexivity|]).
  split; [apply length_map|].
  split.
  - apply find_some in Hf. destruct Hf as (Hin & _).
    apply in_map_iff. exists found. split; [|exact Hin].
    unfold bump. rewrite N.eqb_refl. reflexivity.
  - intros i r Hr. eexists. split.
    + rewrite nth_error_map, Hr. reflexivity.
    + unfold bump. destruct (N.eqb (wa_id r) (wa_id found)) eqn:E.
      * split; [reflexivity|]. apply N.eqb_eq in E. intros Hne. contradiction.
      * split; [destruct r; reflexivity|reflexivity].
Qed.

Lemma weekly_update_changes_hours_only_witness :
  exists row t,
    create_weekly_attendance_or_update 60%N Sample.friday Sample.alice "Alice" 12
      4 Sample.friday Sample.with_bucket = (Ok row, t)
    /\ wa_weekly_attendance_hours row = 9
    /\ wa_start_date row = wa_start_date Sample.bucket
    /\ wa_end_date row = wa_end_date Sample.bucket
    /\ wa_id row = 100%N.
Proof.
  destruct (weekly_update_changes_hours_only Sample.with_bucket 60%N Sample.friday
              Sample.alice "Alice" 12 4 Sample.friday
              (make 2025 2 17 18 0 0 0, make 2025 2 23 18 0 0 0) Sample.bucket
              eq_refl eq_refl)
    as (row & t & Hcall & Hh & Hid & _ & _ & _ & Hs & He & _).
  exists row, t. repeat split; assumption.
Defined.

(** C5, amended: for a date whose week ends no later than 9999-12-31, when
    no weekly row of the user covers the date, the call appends one row and
    returns it: its hours are the daily hours passed in, its start and end
    dates are the Monday and the Sunday computed for the date, and its
    user, name and attendance id are the arguments. *)
Theorem weekly_creates_bucket (s : Session) (new_id : UUID) (now : datetime)
    (user_id : UUID) (full_name : string) (attend_id : Z)
    (daily_attendance_hours : Z) (date : datetime) :
  valid_datetime date ->
  week_representable date ->
  covering user_id date s = [] ->
  exists row start_date end_date,
    week_bounds date = Ok (start_date, end_date)
    /\ create_weekly_attendance_or_update new_id now user_id full_name attend_id
         daily_attendance_hours date s
       = (Ok row,
          {| attendance := attendance s;
             dailyattendance := dailyattendance s;
             weeklyattendance := weeklyattendance s ++ [row] |})
    /\ wa_weekly_attendance_hours row = daily_attendance_hours
    /\ wa_start_date row = start_date
    /\ wa_end_date row = end_date
    /\ Datetime.date start_date = Datetime.date date - weekday date
    /\ weekday start_date = 0
    /\ Datetime.date end_date = Datetime.date start_date + 6
    /\ weekday end_date = 6
    /\ wa_user_id row = user_id
    /\ wa_full_name row = Some full_name
    /\ wa_attend_id row = Some attend_id
    /\ wa_id row = new_id
    /\ covering user_id date
         {| attendance := attendance s;
            dailyattendance := dailyattendance s;
            weeklyattendance := weeklyattendance s ++ [row] |} = [row].
Proof.
  intros Hv Hr Hnone.
  pose proof (week_bounds_ok date Hv Hr) as Hb.
  assert (Hf : find (covers user_id date) (weeklyattendance s) = None)
    by (apply find_none_iff; exact Hnone).
  do 3 eexists.
  split; [exact Hb|].
  split; [apply (weekly_inserts _ _ _ _ _ _ _ _ _ _ Hb Hf)|].
  cbn [wa_weekly_attendance_hours wa_id wa_user_id wa_full_name wa_attend_id
       wa_start_date wa_end_date].
  repeat (split; [reflexivity|]).
  split; [apply monday_is_monday|].
  split; [reflexivity|].
  split; [apply sunday_is_sunday|].
  repeat (split; [reflexivity|]).
  unfold covering in *. cbn [weeklyattendance].
  rewrite filter_app, Hnone. cbn [app filter].
  rewrite monday_covers; reflexivity.
Qed.

Lemma weekly_creates_bucket_witness :
  exists row,
    create_weekly_attendance_or_update 60%N Sample.wednesday Sample.alice "Alice" 12
      3 Sample.wednesday Sample.empty
    = (Ok row,
       {| attendance := []; dailyattendance := []; weeklyattendance := [row] |})
    /\ wa_weekly_attendance_hours row = 3
    /\ Datetime.date (wa_start_date row) = ymd2ord 2025 2 17
    /\ Datetime.date (wa_end_date row) = ymd2ord 2025 2 23.
Proof.
  destruct (weekly_creates_bucket Sample.empty 60%N Sample.wednesday Sample.alice
              "Alice" 12 3 Sample.wednesday)
    as (row & sd & ed & Hb & Hcall & Hh & Hs & He & _).
  - apply valid_datetimeb_sound; reflexivity.
  - unfold week_representable; vm_compute; discriminate.
  - reflexivity.
  - exists row. split; [exact Hcall|]. split; [exact Hh|].
    rewrite Hs, He. injection Hb as <- <-. split; reflexivity.
Defined.

(** C5 as stated fails in the last week of the year 9999: no row covers the
    date, and the call raises before it looks anything up and inserts
    nothing. *)
Lemma weekly_creates_nothing_in_last_week :
  valid_datetime Sample.last_day
  /\ covering Sample.alice Sample.last_day Sample.empty = []
  /\ create_weekly_attendance_or_update 60%N Sample.last_day Sample.alice "Alice" 12
       3 Sample.last_day Sample.empty
     = (Raise (OverflowError "date value out of range"), Sample.empty)
  /\ weeklyattendance Sample.empty = [].
Proof.
  split; [apply valid_datetimeb_sound; reflexivity|].
  repeat split.
Qed.

Lemma weekday_same_date (d d' : datetime) :
  Datetime.date d = Datetime.date d' -> weekday d = weekday d'.
Proof. unfold Datetime.date, weekday. intros ->. reflexivity. Qed.

(** C6: the lookup compares dates only.  For a row of the table that is a
    Monday to Sunday window, the condition of the lookup holds of the row,
    for its user, exactly for the dates from its start to its end, at any
    time of day; the lookup of the function returns a row for a datetime on
    the start date and for one on the end date and, when at most one row
    of a user covers any day, it returns that very row for these and for no
    date outside of the window, and a call on either day adds its hours to
    that row and creates none. *)
Theorem lookup_matches_both_boundaries (s : Session) (w : WeeklyAttendance)
    (on_monday on_sunday : datetime) :
  In w (weeklyattendance s) ->
  aligned w ->
  Datetime.date on_monday = Datetime.date (wa_start_date w) ->
  Datetime.date on_sunday = Datetime.date (wa_end_date w) ->
  covers (wa_user_id w) on_monday w = true
  /\ covers (wa_user_id w) on_sunday w = true
  /\ (forall date,
        covers (wa_user_id w) date w = true
        <-> Datetime.date (wa_start_date w) <= Datetime.date date
            <= Datetime.date (wa_end_date w))
  /\ (exists found,
        exec_first_weekly (covers (wa_user_id w) on_monday) s = (Ok (Some found), s)
        /\ covers (wa_user_id w) on_monday found = true)
  /\ (exists found,
        exec_first_weekly (covers (wa_user_id w) on_sunday) s = (Ok (Some found), s)
        /\ covers (wa_user_id w) on_sunday found = true)
  /\ (at_most_one_bucket s ->
      exec_first_weekly (covers (wa_user_id w) on_monday) s = (Ok (Some w), s)
      /\ exec_first_weekly (covers (wa_user_id w) on_sunday) s = (Ok (Some w), s)
      /\ (forall date,
            exec_first_weekly (covers (wa_user_id w) date) s = (Ok (Some w), s)
            <-> Datetime.date (wa_start_date w) <= Datetime.date date
                <= Datetime.date (wa_end_date w))
      /\ (forall new_id now full_name attend_id daily_attendance_hours,
            valid_datetime on_monday -> valid_datetime on_sunday ->
            fst (create_weekly_attendance_or_update new_id now (wa_user_id w)
                   full_name attend_id daily_attendance_hours on_monday s)
            = Ok (set_weekly_attendance_hours w
                    (wa_weekly_attendance_hours w + daily_attendance_hours))
            /\ fst (create_weekly_attendance_or_update new_id now (wa_user_id w)
                      full_name attend_id daily_attendance_hours on_sunday s)
               = Ok (set_weekly_attendance_hours w
                       (wa_weekly_attendance_hours w + daily_attendance_hours))
            /\ List.length
                 (weeklyattendance
                    (snd (create_weekly_attendance_or_update new_id now
                            (wa_user_id w) full_name attend_id
                            daily_attendance_hours on_monday s)))
               = List.length (weeklyattendance s)
            /\ List.length
                 (weeklyattendance
                    (snd (create_weekly_attendance_or_update new_id now
                            (wa_user_id w) full_name attend_id
                            daily_attendance_hours on_sunday s)))
               = List.length (weeklyattendance s))).
Proof.
  intros Hin Hal Hm Hs.
  pose proof Hal as (Hmon & Hend).
  assert (Hiff : forall date,
            covers (wa_user_id w) date w = true
            <-> Datetime.date (wa_start_date w) <= Datetime.date date
                <= Datetime.date (wa_end_date w)).
  { intros date. rewrite covers_iff. split; [intros (_ & H); exact H|].
    intros H. split; [reflexivity|exact H]. }
  assert (Hcm : covers (wa_user_id w) on_monday w = true) by (apply Hiff; lia).
  assert (Hcs : covers (wa_user_id w) on_sunday w = true) by (apply Hiff; lia).
  assert (Hfind : forall d, covers (wa_user_id w) d w = true ->
            exists found,
              exec_first_weekly (covers (wa_user_id w) d) s = (Ok (Some found), s)
              /\ covers (wa_user_id w) d found = true).
  { intros d Hc. unfold exec_first_weekly.
    destruct (find (covers (wa_user_id w) d) (weeklyattendance s)) as [found|] eqn:Hf.
    - exists found. split; [reflexivity|]. apply find_some in Hf. apply Hf.
    - rewrite (find_none _ _ Hf w Hin) in Hc. discriminate. }
  assert (Hsame : at_most_one_bucket s -> forall d,
            covers (wa_user_id w) d w = true ->
            find (covers (wa_user_id w) d) (weeklyattendance s) = Some w).
  { intros Hone d Hc. destruct (Hfind d Hc) as (found & Hf & Hcf).
    unfold exec_first_weekly in Hf. injection Hf as Hf.
    rewrite Hf. f_equal.
    apply find_some in Hf. destruct Hf as (Hinf & _).
    apply (short_list_eq (covering (wa_user_id w) d s)).
    - apply Hone.
    - apply filter_In. split; assumption.
    - apply filter_In. split; assumption. }
  split; [exact Hcm|]. split; [exact Hcs|]. split; [exact Hiff|].
  split; [apply Hfind; exact Hcm|]. split; [apply Hfind; exact Hcs|].
  intros Hone.
  assert (Hcall : forall d new_id now full_name attend_id h,
            valid_datetime d -> week_representable d ->
            covers (wa_user_id w) d w = true ->
            create_weekly_attendance_or_update new_id now (wa_user_id w)
              full_name attend_id h d s
            = (Ok (set_weekly_attendance_hours w (wa_weekly_attendance_hours w + h)),
               {| attendance := attendance s;
                  dailyattendance := dailyattendance s;
                  weeklyattendance :=
                    map (bump (wa_id w) (wa_weekly_attendance_hours w + h))
                        (weeklyattendance s) |})).
  { intros d new_id now full_name attend_id h Hv Hr Hc.
    apply (weekly_updates _ _ _ _ _ _ _ _ _ _ (week_bounds_ok d Hv Hr)).
    apply Hsame; assumption. }
  split; [unfold exec_first_weekly; rewrite (Hsame Hone _ Hcm); reflexivity|].
  split; [unfold exec_first_weekly; rewrite (Hsame Hone _ Hcs); reflexivity|].
  split.
  - intros date. rewrite <- Hiff. unfold exec_first_weekly. split.
    + intros H. injection H as H. apply find_some in H. apply H.
    + intros Hc. rewrite (Hsame Hone _ Hc). reflexivity.
  - intros new_id now full_name attend_id h Hvm Hvs.
    pose proof (aligned_covers_monday _ _ _ Hal Hcm) as M1.
    pose proof (aligned_covers_monday _ _ _ Hal Hcs) as M2.
    assert (Hrs : week_representable on_sunday).
    { unfold week_representable. rewrite <- M2, <- Hend, <- Hs.
      destruct Hvs as (Ho & _). unfold Datetime.date. lia. }
    assert (Hrm : week_representable on_monday)
      by (unfold week_representable in *; rewrite <- M1, M2; exact Hrs).
    rewrite (Hcall on_monday new_id now full_name attend_id h Hvm Hrm Hcm).
    rewrite (Hcall on_sunday new_id now full_name attend_id h Hvs Hrs Hcs).
    cbn [fst snd weeklyattendance]. rewrite length_map.
    repeat split.
Qed.

Lemma lookup_matches_both_boundaries_witness :
  exec_first_weekly (covers Sample.alice Sample.monday_morning) Sample.with_bucket
  = (Ok (Some Sample.bucket), Sample.with_bucket)
  /\ exec_first_weekly (covers Sample.alice Sample.sunday_night) Sample.with_bucket
     = (Ok (Some Sample.bucket), Sample.with_bucket)
  /\ fst (create_weekly_attendance_or_update 60%N Sample.friday Sample.alice
            "Alice" 12 4 Sample.monday_morning Sample.with_bucket)
     = Ok (set_weekly_attendance_hours Sample.bucket 9)
  /\ fst (create_weekly_attendance_or_update 60%N Sample.friday Sample.alice
            "Alice" 12 4 Sample.sunday_night Sample.with_bucket)
     = Ok (set_weekly_attendance_hours Sample.bucket 9)
  /\ covers Sample.alice (make 2025 2 16 23 59 59 0) Sample.bucket = false
  /\ covers Sample.alice (make 2025 2 24 0 0 0 0) Sample.bucket = false.
Proof.
  destruct (lookup_matches_both_boundaries Sample.with_bucket Sample.bucket
              Sample.monday_morning Sample.sunday_night)
    as (_ & _ & Hiff & _ & _ & Hone).
  - left; reflexivity.
  - split; reflexivity.
  - reflexivity.
  - reflexivity.
  - destruct Hone as (Hm & Hs & _ & Hcalls).
    { intros u d. unfold covering. cbn.
      destruct (covers u d Sample.bucket); cbn; lia. }
    destruct (Hcalls 60%N Sample.friday "Alice"%string 12 4) as (C1 & C2 & _).
    { apply valid_datetimeb_sound; reflexivity. }
    { apply valid_datetimeb_sound; reflexivity. }
    split; [exact Hm|]. split; [exact Hs|].
    split; [exact C1|]. split; [exact C2|].
    split; apply not_true_iff_false; intros Hc; apply Hiff in Hc;
      vm_compute in Hc; destruct Hc as (H1 & H2);
      [apply H1|apply H2]; reflexivity.
Defined.

(** The three ways in which a call may leave the weekly table. *)
Lemma weekly_step_cases (s : Session) (new_id : UUID) (now : datetime)
    (user_id : UUID) (full_name : string) (attend_id : Z)
    (daily_attendance_hours : Z) (date : datetime) :
  let t := snd (create_weekly_attendance_or_update new_id now user_id full_name
                  attend_id daily_attendance_hours date s) in
  weeklyattendance t = weeklyattendance s
  \/ (exists row,
        weeklyattendance t = weeklyattendance s ++ [row]
        /\ wa_weekly_attendance_hours row = daily_attendance_hours
        /\ find (covers user_id date) (weeklyattendance s) = None)
  \/ (exists found,
        find (covers user_id date) (weeklyattendance s) = Some found
        /\ weeklyattendance t
           = map (bump (wa_id found)
                    (wa_weekly_attendance_hours found + daily_attendance_hours))
               (weeklyattendance s)).
Proof.
  intros t; subst t.
  destruct (week_bounds date) as [[start_date end_date]|e] eqn:Hb;
    [|rewrite (weekly_raises _ _ _ _ _ _ _ _ _ Hb); left; reflexivity].
  destruct (find (covers user_id date) (weeklyattendance s)) as [found|] eqn:Hf.
  - rewrite (weekly_updates _ _ _ _ _ _ _ _ _ _ Hb Hf).
    right; right. exists found. split; reflexivity.
  - rewrite (weekly_inserts _ _ _ _ _ _ _ _ _ _ Hb Hf).
    right; left. eexists. repeat split.
Qed.

(** C8, amended: a call never removes a weekly row and changes nothing of a
    row but its hours; it leaves the table as it is, appends one row whose
    hours are the daily hours, or adds the daily hours to the row the lookup
    found.  The hours of a row do not decrease when the daily hours passed
    in are not negative. *)
Theorem weekly_step_is_additive (s : Session) (new_id : UUID) (now : datetime)
    (user_id : UUID) (full_name : string) (attend_id : Z)
    (daily_attendance_hours : Z) (date : datetime) (i : nat)
    (w : WeeklyAttendance) :
  nth_error (weeklyattendance s) i = Some w ->
  let t := snd (create_weekly_attendance_or_update new_id now user_id full_name
                  attend_id daily_attendance_hours date s) in
  (exists w',
     nth_error (weeklyattendance t) i = Some w'
     /\ w' = set_weekly_attendance_hours w (wa_weekly_attendance_hours w')
     /\ (wa_weekly_attendance_hours w' = wa_weekly_attendance_hours w
         \/ exists found,
              find (covers user_id date) (weeklyattendance s) = Some found
              /\ wa_id w = wa_id found
              /\ wa_weekly_attendance_hours w'
                 = wa_weekly_attendance_hours found + daily_attendance_hours)
     /\ (0 <= daily_attendance_hours ->
         (forall r, In r (weeklyattendance s) -> wa_id r = wa_id w -> r = w) ->
         wa_weekly_attendance_hours w <= wa_weekly_attendance_hours w'))
  /\ (List.length (weeklyattendance s) <= List.length (weeklyattendance t))%nat
  /\ (weeklyattendance t = weeklyattendance s
      \/ (exists row,
            weeklyattendance t = weeklyattendance s ++ [row]
            /\ wa_weekly_attendance_hours row = daily_attendance_hours)
      \/ (exists found,
            find (covers user_id date) (weeklyattendance s) = Some found
            /\ weeklyattendance t
               = map (bump (wa_id found)
                        (wa_weekly_attendance_hours found + daily_attendance_hours))
                   (weeklyattendance s))).
Proof.
  intros Hw t.
  assert (Hself : w = set_weekly_attendance_hours w (wa_weekly_attendance_hours w))
    by (destruct w; reflexivity).
  destruct (weekly_step_cases s new_id now user_id full_name attend_id
              daily_attendance_hours date)
    as [Hsame | [(row & Happ & Hh & _) | (found & Hf & Hmap)]];
    fold t in Hsame || fold t in Happ || fold t in Hmap.
  - split; [|split; [rewrite Hsame; lia|left; exact Hsame]].
    exists w. rewrite Hsame. split; [exact Hw|]. split; [exact Hself|].
    split; [left; reflexivity|]. intros _ _. lia.
  - split; [|split; [rewrite Happ, length_app; lia|
                     right; left; exists row; split; assumption]].
    exists w. rewrite Happ. split.
    + rewrite nth_error_app1; [exact Hw|]. apply nth_error_Some. congruence.
    + split; [exact Hself|]. split; [left; reflexivity|]. intros _ _. lia.
  - split; [|split; [rewrite Hmap, length_map; lia|
                     right; right; exists found; split; assumption]].
    eexists. rewrite Hmap. split; [rewrite nth_error_map, Hw; reflexivity|].
    unfold bump. destruct (N.eqb (wa_id w) (wa_id found)) eqn:E.
    + apply N.eqb_eq in E. cbn [wa_weekly_attendance_hours set_weekly_attendance_hours].
      split; [reflexivity|]. split.
      * right. exists found. repeat split; assumption.
      * intros Hpos Hkey.
        apply find_some in Hf. destruct Hf as (Hin & _).
        rewrite (Hkey found Hin (eq_sym E)). lia.
    + split; [exact Hself|]. split; [left; reflexivity|]. intros _ _. lia.
Qed.

Lemma weekly_step_is_additive_witness :
  exists w',
    nth_error
      (weeklyattendance
         (snd (create_weekly_attendance_or_update 60%N Sample.friday Sample.alice
                 "Alice" 12 4 Sample.friday Sample.with_bucket))) 0
    = Some w'
    /\ wa_weekly_attendance_hours Sample.bucket <= wa_weekly_attendance_hours w'.
Proof.
  destruct (weekly_step_is_additive Sample.with_bucket 60%N Sample.friday
              Sample.alice "Alice" 12 4 Sample.friday 0%nat Sample.bucket eq_refl)
    as ((w' & Hn & _ & _ & Hle) & _).
  exists w'. split; [exact Hn|]. apply Hle; [lia|].
  intros r [<-|[]] _. reflexivity.
Defined.

(** C8 as stated fails for negative daily hours, which the call accepts: the
    hours of the row found go from 5 to 3. *)
Lemma weekly_hours_decrease :
  exists row t,
    create_weekly_attendance_or_update 60%N Sample.friday Sample.alice "Alice" 12
      (-2) Sample.friday Sample.with_bucket = (Ok row, t)
    /\ weeklyattendance Sample.with_bucket = [Sample.bucket]
    /\ weeklyattendance t = [row]
    /\ wa_id row = wa_id Sample.bucket
    /\ wa_weekly_attendance_hours Sample.bucket = 5
    /\ wa_weekly_attendance_hours row = 3
    /\ wa_weekly_attendance_hours row < wa_weekly_attendance_hours Sample.bucket.
Proof.
  do 2 eexists. split; [vm_compute; reflexivity|]. repeat split.
Qed.

(** C4, amended: in every session that calls of the weekly aggregation lead
    to from an empty weekly table, at most one row of a user covers a day.
    From such a session in which no row of the user covers the week, and for
    a week that ends no later than 9999-12-31, two calls in a row on days of
    that week create one row and then add to it: with daily hours 3 and 4
    the table holds one row more, the only row covering the week, with 7
    hours. *)
Theorem weekly_two_calls_one_bucket (s : Session) :
  reachable s ->
  at_most_one_bucket s
  /\ forall (id1 id2 : UUID) (now1 now2 : datetime) (user_id : UUID)
        (full_name : string) (attend_id : Z) (hours1 hours2 : Z)
        (date1 date2 : datetime),
       valid_datetime date1 ->
       valid_datetime date2 ->
       monday_of date1 = monday_of date2 ->
       week_representable date1 ->
       covering user_id date1 s = [] ->
       exists row1 s1 row2 s2,
         create_weekly_attendance_or_update id1 now1 user_id full_name attend_id
           hours1 date1 s = (Ok row1, s1)
         /\ create_weekly_attendance_or_update id2 now2 user_id full_name attend_id
              hours2 date2 s1 = (Ok row2, s2)
         /\ wa_weekly_attendance_hours row1 = hours1
         /\ wa_weekly_attendance_hours row2 = hours1 + hours2
         /\ wa_id row2 = wa_id row1
         /\ covering user_id date1 s2 = [row2]
         /\ covering user_id date2 s2 = [row2]
         /\ List.length (weeklyattendance s2) = S (List.length (weeklyattendance s))
         /\ at_most_one_bucket s2.
Proof.
  intros Hreach.
  pose proof (reachable_well_formed s Hreach) as Hwf.
  split; [apply Hwf|].
  intros id1 id2 now1 now2 user_id full_name attend_id hours1 hours2 date1 date2
         Hv1 Hv2 Hweek Hrep Hnone.
  pose proof (week_bounds_ok date1 Hv1 Hrep) as Hb1.
  assert (Hf1 : find (covers user_id date1) (weeklyattendance s) = None)
    by (apply find_none_iff; exact Hnone).
  pose proof (weekly_inserts s id1 now1 user_id full_name attend_id hours1 date1
                _ _ Hb1 Hf1) as Hcall1.
  match type of Hcall1 with
  | _ = (Ok ?r, _) => remember r as row1 eqn:Erow1
  end.
  assert (Hh1 : wa_weekly_attendance_hours row1 = hours1)
    by (subst row1; reflexivity).
  assert (Hu1 : wa_user_id row1 = user_id) by (subst row1; reflexivity).
  assert (Hsd : wa_start_date row1
                = mk_datetime (monday_of date1) (dt_seconds date1)
                    (dt_microsecond date1)) by (subst row1; reflexivity).
  assert (Hed : wa_end_date row1
                = mk_datetime (monday_of date1 + 6) (dt_seconds date1)
                    (dt_microsecond date1)) by (subst row1; reflexivity).
  clear Erow1.
  set (s1 := {| attendance := attendance s;
                dailyattendance := dailyattendance s;
                weeklyattendance := weeklyattendance s ++ [row1] |}) in *.
  destruct (new_bucket_aligned date1 _ _ row1 Hv1 Hb1 Hsd Hed)
    as (Hal1 & Hstart1 & Hend1).
  assert (Hrep2 : week_representable date2)
    by (unfold week_representable in *; rewrite <- Hweek; exact Hrep).
  pose proof (week_bounds_ok date2 Hv2 Hrep2) as Hb2.
  assert (Hnone2 : filter (covers user_id date2) (weeklyattendance s) = []).
  { apply filter_nil_iff. intros r Hr.
    destruct Hwf as (Hal & _). rewrite Forall_forall in Hal.
    rewrite <- (aligned_covers_same_week user_id date1 date2 r (Hal r Hr) Hweek).
    unfold covering in Hnone. rewrite filter_nil_iff in Hnone. apply Hnone, Hr. }
  assert (Hc2 : covers user_id date2 row1 = true)
    by (apply monday_covers; congruence).
  assert (Hc1 : covers user_id date1 row1 = true)
    by (apply monday_covers; congruence).
  assert (Hf2 : find (covers user_id date2) (weeklyattendance s1) = Some row1).
  { unfold s1; cbn [weeklyattendance].
    rewrite (find_app_skip _ _ _ Hnone2). cbn [find]. rewrite Hc2. reflexivity. }
  pose proof (weekly_updates s1 id2 now2 user_id full_name attend_id hours2 date2
                _ row1 Hb2 Hf2) as Hcall2.
  assert (Hreach2 : reachable
            (snd (create_weekly_attendance_or_update id2 now2 user_id full_name
                    attend_id hours2 date2
                    (snd (create_weekly_attendance_or_update id1 now1 user_id
                            full_name attend_id hours1 date1 s)))))
    by (apply reachable_step; [apply reachable_step|]; assumption).
  rewrite Hcall1 in Hreach2. cbn [snd] in Hreach2.
  rewrite Hcall2 in Hreach2. cbn [snd] in Hreach2.
  do 4 eexists.
  split; [exact Hcall1|]. split; [exact Hcall2|].
  cbn [wa_weekly_attendance_hours set_weekly_attendance_hours wa_id].
  split; [exact Hh1|]. split; [rewrite Hh1; reflexivity|]. split; [reflexivity|].
  assert (Hbump : bump (wa_id row1) (wa_weekly_attendance_hours row1 + hours2) row1
                  = set_weekly_attendance_hours row1
                      (wa_weekly_attendance_hours row1 + hours2))
    by (unfold bump; rewrite N.eqb_refl; reflexivity).
  split; [|split; [|split]].
  - unfold covering. cbn [weeklyattendance].
    rewrite filter_covers_bump. unfold s1; cbn [weeklyattendance].
    unfold covering in Hnone. rewrite filter_app, Hnone. cbn [app filter].
    rewrite Hc1. cbn [map]. rewrite Hbump. reflexivity.
  - unfold covering. cbn [weeklyattendance].
    rewrite filter_covers_bump. unfold s1; cbn [weeklyattendance].
    rewrite filter_app, Hnone2. cbn [app filter].
    rewrite Hc2. cbn [map]. rewrite Hbump. reflexivity.
  - cbn [weeklyattendance]. rewrite length_map. unfold s1; cbn [weeklyattendance].
    rewrite length_app. cbn. lia.
  - apply (reachable_well_formed _ Hreach2).
Qed.

Lemma weekly_two_calls_one_bucket_witness :
  exists row1 s1 row2 s2,
    create_weekly_attendance_or_update 60%N Sample.wednesday Sample.alice "Alice"
      12 3 Sample.wednesday Sample.empty = (Ok row1, s1)
    /\ create_weekly_attendance_or_update 61%N Sample.friday Sample.alice "Alice"
         12 4 Sample.friday s1 = (Ok row2, s2)
    /\ wa_weekly_attendance_hours row2 = 7
    /\ weeklyattendance s2 = [row2].
Proof.
  destruct (weekly_two_calls_one_bucket Sample.empty) as (_ & Htwo);
    [apply reachable_init; reflexivity|].
  destruct (Htwo 60%N 61%N Sample.wednesday Sample.friday Sample.alice
              "Alice"%string 12
              3 4 Sample.wednesday Sample.friday)
    as (row1 & s1 & row2 & s2 & H1 & H2 & _ & Hh & _ & Hc & _ & Hlen & _).
  - apply valid_datetimeb_sound; reflexivity.
  - apply valid_datetimeb_sound; reflexivity.
  - reflexivity.
  - unfold week_representable; vm_compute; discriminate.
  - reflexivity.
  - exists row1, s1, row2, s2.
    split; [exact H1|]. split; [exact H2|]. split; [exact Hh|].
    unfold covering in Hc.
    destruct (weeklyattendance s2) as [|r [|r' l]]; cbn in Hlen; try discriminate.
    cbn in Hc. destruct (covers Sample.alice Sample.wednesday r); [exact Hc|discriminate].
Defined.

(** C4 as stated fails in the last week of the year 9999: both calls raise
    and no row with 7 hours exists afterwards. *)
Lemma weekly_two_calls_no_bucket_in_last_week :
  let first_call :=
    create_weekly_attendance_or_update 60%N Sample.last_day Sample.alice "Alice" 12
      3 Sample.last_day Sample.empty in
  let second_call :=
    create_weekly_attendance_or_update 61%N Sample.last_day Sample.alice "Alice" 12
      4 Sample.last_day (snd first_call) in
  reachable Sample.empty
  /\ valid_datetime Sample.last_day
  /\ covering Sample.alice Sample.last_day Sample.empty = []
  /\ fst first_call = Raise (OverflowError "date value out of range")
  /\ fst second_call = Raise (OverflowError "date value out of range")
  /\ weeklyattendance (snd second_call) = []
  /\ ~ (exists row, In row (weeklyattendance (snd second_call))
                    /\ wa_weekly_attendance_hours row = 7).
Proof.
  cbv zeta.
  split; [apply reachable_init; reflexivity|].
  split; [apply valid_datetimeb_sound; reflexivity|].
  split; [reflexivity|]. split; [reflexivity|]. split; [reflexivity|].
  split; [reflexivity|].
  intros (row & Hin & _). exact Hin.
Qed.

(** ** More on the week of a day *)

Lemma monday_of_same_iff (d d' : datetime) :
  monday_of d' = monday_of d
  <-> monday_of d <= Datetime.date d' <= monday_of d + 6.
Proof.
  unfold monday_of, weekday, Datetime.date.
  pose proof (Z.div_mod (dt_ordinal d + 6) 7 ltac:(lia)) as E.
  pose proof (Z.mod_pos_bound (dt_ordinal d + 6) 7 ltac:(lia)) as B.
  pose proof (Z.div_mod (dt_ordinal d' + 6) 7 ltac:(lia)) as E'.
  pose proof (Z.mod_pos_bound (dt_ordinal d' + 6) 7 ltac:(lia)) as B'.
  lia.
Qed.

(** X1: the seven days from the start to the end of a week, and no other
    day, have that week: a date lies between the two boundaries computed for
    a day exactly when the same two dates are computed for it. *)
Theorem week_shared_by_its_days (today other : datetime) :
  valid_datetime today ->
  valid_datetime other ->
  week_representable today ->
  exists start_date end_date,
    week_bounds today = Ok (start_date, end_date)
    /\ (Datetime.date start_date <= Datetime.date other <= Datetime.date end_date
        <-> exists start_date' end_date',
              week_bounds other = Ok (start_date', end_date')
              /\ Datetime.date start_date' = Datetime.date start_date
              /\ Datetime.date end_date' = Datetime.date end_date).
Proof.
  intros Hv Hvo Hr.
  do 2 eexists. split; [apply week_bounds_ok; assumption|].
  unfold Datetime.date at 1 3 5 6; cbn [dt_ordinal].
  rewrite <- monday_of_same_iff. split.
  - intros Hm. do 2 eexists. split.
    + apply week_bounds_ok; [assumption|].
      unfold week_representable. rewrite Hm. exact Hr.
    + unfold Datetime.date; cbn [dt_ordinal]. rewrite Hm. split; reflexivity.
  - intros (s' & e' & Hb & Hs & _).
    destruct (week_bounds_inv _ _ _ Hvo Hb) as (-> & _ & _).
    exact Hs.
Qed.

Lemma week_shared_by_its_days_witness :
  exists start_date end_date,
    week_bounds Sample.friday = Ok (start_date, end_date)
    /\ Datetime.date start_date = ymd2ord 2025 2 17
    /\ Datetime.date end_date = ymd2ord 2025 2 23.
Proof.
  destruct (week_shared_by_its_days Sample.wednesday Sample.friday)
    as (s & e & Hb & Hiff).
  - apply valid_datetimeb_sound; reflexivity.
  - apply valid_datetimeb_sound; reflexivity.
  - unfold week_representable; vm_compute; discriminate.
  - injection Hb as <- <-.
    destruct Hiff as (Hto & _).
    destruct Hto as (s' & e' & Hb' & Hs' & He').
    + split; vm_compute; discriminate.
    + exists s', e'. split; [exact Hb'|]. split.
      * rewrite Hs'. reflexivity.
      * rewrite He'. reflexivity.
Defined.

(** ** More on the daily aggregation *)

Lemma filter_skips {A : Type} (p : A -> bool) (l1 l2 : list A) (a : A) :
  p a = false -> filter p (l1 ++ a :: l2) = filter p (l1 ++ l2).
Proof.
  intros H. rewrite !filter_app. cbn [filter]. rewrite H. reflexivity.
Qed.

Lemma on_day_same_date (user_id : UUID) (date date' : datetime) (a : Attendance) :
  Datetime.date date' = Datetime.date date ->
  on_day user_id date' a = on_day user_id date a.
Proof. intros H. unfold on_day. rewrite H. reflexivity. Qed.

Lemma create_daily_attendance_same_events (s s' : Session) (new_id : UUID)
    (now : datetime) (user_id : UUID) (full_name : string) (attend_id : Z)
    (date date' : datetime) :
  filter (on_day user_id date') (attendance s')
  = filter (on_day user_id date) (attendance s) ->
  fst (create_daily_attendance new_id now user_id full_name attend_id date' s')
  = fst (create_daily_attendance new_id now user_id full_name attend_id date s).
Proof.
  intros H.
  unfold create_daily_attendance, bind, exec_all_attendance. rewrite H.
  destruct (filter (on_day user_id date) (attendance s)) as [|a0 [|a1 l]];
    reflexivity.
Qed.

(** X2: the outcome of the daily aggregation is that of the user's events
    on the calendar day alone: an event of another user or of another day,
    wherever it stands in the table, and the time of day of the date
    passed in change neither the row returned nor the error raised. *)
Theorem daily_ignores_other_events (before after : list Attendance)
    (other : Attendance) (daily : list DailyAttendance)
    (weekly : list WeeklyAttendance) (new_id : UUID) (now : datetime)
    (user_id : UUID) (full_name : string) (attend_id : Z)
    (date date' : datetime) :
  att_user_id other <> user_id
  \/ Datetime.date (att_created_at other) <> Datetime.date date ->
  Datetime.date date' = Datetime.date date ->
  fst (create_daily_attendance new_id now user_id full_name attend_id date'
         {| attendance := before ++ other :: after;
            dailyattendance := daily;
            weeklyattendance := weekly |})
  = fst (create_daily_attendance new_id now user_id full_name attend_id date
           {| attendance := before ++ after;
              dailyattendance := daily;
              weeklyattendance := weekly |}).
Proof.
  intros Hother Hdate.
  apply create_daily_attendance_same_events. cbn [attendance].
  assert (Hp : on_day user_id date other = false).
  { unfold on_day. apply andb_false_iff.
    destruct Hother as [Hu|Hd]; [left; apply N.eqb_neq|right; apply Z.eqb_neq];
      assumption. }
  rewrite <- (filter_skips _ _ _ _ Hp).
  apply filter_ext. intros a. apply on_day_same_date. exact Hdate.
Qed.

Lemma daily_ignores_other_events_witness :
  fst (create_daily_attendance 50%N Sample.wednesday Sample.alice "Alice" 12
         Sample.wednesday
         {| attendance :=
              [Sample.at_9_00; Sample.event 9%N Sample.friday; Sample.at_14_30];
            dailyattendance := [];
            weeklyattendance := [] |})
  = fst (create_daily_attendance 50%N Sample.wednesday Sample.alice "Alice" 12
           (make 2025 2 19 0 0 0 0) Sample.regular_day).
Proof.
  apply (daily_ignores_other_events [Sample.at_9_00] [Sample.at_14_30]
           (Sample.event 9%N Sample.friday)).
  - right. vm_compute. discriminate.
  - reflexivity.
Defined.

Lemma ltb_iff (d1 d2 : datetime) :
  valid_datetime d1 -> valid_datetime d2 ->
  Datetime.ltb d1 d2 = true <-> to_microseconds d1 < to_microseconds d2.
Proof.
  intros Hv1 Hv2. split; [apply ltb_to_microseconds; assumption|].
  destruct Hv1 as (Ho1 & Hs1 & Hu1), Hv2 as (Ho2 & Hs2 & Hu2).
  unfold Datetime.ltb, to_microseconds. intros H.
  repeat rewrite ?orb_true_iff, ?andb_true_iff, ?Z.ltb_lt, ?Z.eqb_eq.
  lia.
Qed.

(** X3: the hours that the daily aggregation stores are whole hours: the
    two events it uses are of the same calendar day, and the row holds the
    integer nearest to the hours elapsed between them, from -24 to 24, both
    reached only by gaps of 23 and a half hours or more.  It is not
    negative when the second event returned is not earlier than the first,
    not positive when it is, and 0 exactly when the two events are at most
    30 minutes apart. *)
Theorem daily_hours_within_a_day (s : Session) (new_id : UUID) (now : datetime)
    (user_id : UUID) (full_name : string) (attend_id : Z) (date : datetime)
    (first_ second_ : Attendance) (rest : list Attendance) :
  filter (on_day user_id date) (attendance s) = first_ :: second_ :: rest ->
  valid_datetime (att_created_at first_) ->
  valid_datetime (att_created_at second_) ->
  exists row t k,
    create_daily_attendance new_id now user_id full_name attend_id date s
    = (Ok row, t)
    /\ da_daily_attendance_hours row = inject_Z k
    /\ - 24 <= k <= 24
    /\ (2 * k - 1) * 1800000000
       <= to_microseconds (att_created_at second_)
          - to_microseconds (att_created_at first_)
       <= (2 * k + 1) * 1800000000
    /\ (Datetime.ltb (att_created_at second_) (att_created_at first_) = false ->
        0 <= k)
    /\ (Datetime.ltb (att_created_at second_) (att_created_at first_) = true ->
        k <= 0)
    /\ (k = 0
        <-> - 1800000000
            <= to_microseconds (att_created_at second_)
               - to_microseconds (att_created_at first_)
            <= 1800000000).
Proof.
  intros H Hv1 Hv2.
  pose proof (first_two_on_day _ _ _ _ _ _ H) as Hd.
  pose proof (same_day_gap _ _ Hv1 Hv2 Hd) as Hgap.
  do 3 eexists.
  split; [apply (create_daily_attendance_two _ _ _ _ _ _ _ _ _ _ H)|].
  cbn [da_daily_attendance_hours].
  split; [apply (stored_hours _ _ Hv1 Hv2 Hd)|].
  set (n := to_microseconds (att_created_at second_)
            - to_microseconds (att_created_at first_)) in *.
  pose proof (rint_exact_hours_near n) as Hn.
  pose proof (rint_exact_hours_zero n) as Hz.
  split; [lia|]. split; [exact Hn|]. split; [|split; [|exact Hz]].
  - intros Hge. apply not_true_iff_false in Hge.
    rewrite (ltb_iff _ _ Hv2 Hv1) in Hge. fold n in Hn. lia.
  - intros Hlt. apply (ltb_iff _ _ Hv2 Hv1) in Hlt. lia.
Qed.

Lemma daily_hours_within_a_day_witness :
  exists row t,
    create_daily_attendance 50%N Sample.wednesday Sample.alice "Alice" 12
      Sample.wednesday SampleDay.whole_day = (Ok row, t)
    /\ da_daily_attendance_hours row = 24%Q.
Proof.
  destruct (daily_hours_within_a_day SampleDay.whole_day 50%N Sample.wednesday
              Sample.alice "Alice" 12 Sample.wednesday SampleDay.at_0_00
              SampleDay.at_23_59 [])
    as (row & t & k & Hcall & Hh & Hb & Hn & _).
  - reflexivity.
  - apply valid_datetimeb_sound; reflexivity.
  - apply valid_datetimeb_sound; reflexivity.
  - exists row, t. split; [exact Hcall|]. rewrite Hh.
    assert (E : to_microseconds (att_created_at SampleDay.at_23_59)
                - to_microseconds (att_created_at SampleDay.at_0_00)
                = 86399999999) by (vm_compute; reflexivity).
    rewrite E in Hn.
    assert (k = 24) by lia. subst k. reflexivity.
Defined.

(** X4: the daily aggregation keeps no trace of having run: a second call
    for the same user and day finds the same two events, returns the same
    hours and inserts a second daily row beside the first. *)
Theorem daily_twice_inserts_twice (s : Session) (id1 id2 : UUID)
    (now1 now2 : datetime) (user_id : UUID) (full_name : string) (attend_id : Z)
    (date : datetime) (first_ second_ : Attendance) (rest : list Attendance) :
  filter (on_day user_id date) (attendance s) = first_ :: second_ :: rest ->
  exists row1 s1 row2 s2,
    create_daily_attendance id1 now1 user_id full_name attend_id date s
    = (Ok row1, s1)
    /\ create_daily_attendance id2 now2 user_id full_name attend_id date s1
       = (Ok row2, s2)
    /\ da_daily_attendance_hours row2 = da_daily_attendance_hours row1
    /\ da_user_id row2 = da_user_id row1
    /\ dailyattendance s2 = dailyattendance s ++ [row1; row2]
    /\ attendance s2 = attendance s
    /\ weeklyattendance s2 = weeklyattendance s.
Proof.
  intros H.
  do 4 eexists.
  split; [apply (create_daily_attendance_two _ _ _ _ _ _ _ _ _ _ H)|].
  split; [apply (create_daily_attendance_two _ _ _ _ _ _ _ first_ second_ rest);
          exact H|].
  cbn [da_daily_attendance_hours da_user_id dailyattendance attendance
       weeklyattendance].
  rewrite <- app_assoc. repeat split.
Qed.

Lemma daily_twice_inserts_twice_witness :
  exists row1 s1 row2 s2,
    create_daily_attendance 50%N Sample.wednesday Sample.alice "Alice" 12
      Sample.wednesday Sample.regular_day = (Ok row1, s1)
    /\ create_daily_attendance 51%N Sample.friday Sample.alice "Alice" 12
         Sample.wednesday s1 = (Ok row2, s2)
    /\ dailyattendance s2 = [row1; row2]
    /\ da_daily_attendance_hours row2 = da_daily_attendance_hours row1.
Proof.
  destruct (daily_twice_inserts_twice Sample.regular_day 50%N 51%N
              Sample.wednesday Sample.friday Sample.alice "Alice" 12
              Sample.wednesday Sample.at_9_00 Sample.at_14_30 [] eq_refl)
    as (row1 & s1 & row2 & s2 & H1 & H2 & Hh & _ & Hd & _).
  exists row1, s1, row2, s2. repeat split; assumption.
Defined.

(** ** More on the weekly aggregation *)

Lemma covering_same_week (user_id : UUID) (date date' : datetime) (s : Session) :
  Forall aligned (weeklyattendance s) ->
  monday_of date = monday_of date' ->
  covering user_id date s = covering user_id date' s.
Proof.
  intros Hal Hm. unfold covering. apply filter_ext_in. intros r Hr.
  rewrite Forall_forall in Hal.
  apply aligned_covers_same_week; [apply Hal; exact Hr|exact Hm].
Qed.

Lemma find_of_filter {A : Type} (p : A -> bool) (l rest : list A) (x : A) :
  filter p l = x :: rest -> find p l = Some x.
Proof.
  induction l as [|a l IH]; cbn; [discriminate|].
  destruct (p a); [intros H; injection H as -> _; reflexivity|exact IH].
Qed.

Lemma weekly_inserts_uncovered (s : Session) (new_id : UUID) (now : datetime)
    (user_id : UUID) (full_name : string) (attend_id : Z)
    (daily_attendance_hours : Z) (date : datetime) :
  valid_datetime date ->
  week_representable date ->
  covering user_id date s = [] ->
  exists row,
    create_weekly_attendance_or_update new_id now user_id full_name attend_id
      daily_attendance_hours date s
    = (Ok row,
       {| attendance := attendance s;
          dailyattendance := dailyattendance s;
          weeklyattendance := weeklyattendance s ++ [row] |})
    /\ wa_weekly_attendance_hours row = daily_attendance_hours
    /\ wa_id row = new_id
    /\ wa_user_id row = user_id
    /\ week_window row
    /\ Datetime.date (wa_start_date row) = monday_of date
    /\ covers user_id date row = true.
Proof.
  intros Hv Hr Hnone.
  pose proof Hv as (Ho & Hs & Hu).
  pose proof (monday_of_pos date ltac:(lia)) as Hm.
  pose proof (weekday_range date) as Hw.
  pose proof (week_bounds_ok date Hv Hr) as Hb.
  assert (Hf : find (covers user_id date) (weeklyattendance s) = None)
    by (apply find_none_iff; exact Hnone).
  eexists. split; [apply (weekly_inserts _ _ _ _ _ _ _ _ _ _ Hb Hf)|].
  cbn [wa_weekly_attendance_hours wa_id wa_user_id].
  repeat (split; [reflexivity|]).
  split; [|split; [reflexivity|apply monday_covers; reflexivity]].
  unfold week_window. cbn [wa_start_date wa_end_date].
  split; [|split; [|split; [apply monday_is_monday|
                    split; [apply sunday_is_sunday|repeat split]]]].
  - unfold valid_datetime, week_representable in *.
    cbn [dt_ordinal dt_seconds dt_microsecond].
    unfold monday_of, Datetime.date in *. lia.
  - unfold valid_datetime, week_representable in *.
    cbn [dt_ordinal dt_seconds dt_microsecond].
    unfold monday_of, Datetime.date in *. lia.
Qed.

Lemma weekly_accumulates (user_id : UUID) (full_name : string) (attend_id : Z)
    (date : datetime) (calls : list weekly_call) :
  week_representable date ->
  Forall (fun c => valid_datetime (wc_date c)
                   /\ monday_of (wc_date c) = monday_of date) calls ->
  forall (s : Session) (row : WeeklyAttendance),
    well_formed s ->
    covering user_id date s = [row] ->
    exists row',
      covering user_id date (run_weekly user_id full_name attend_id calls s) = [row']
      /\ wa_weekly_attendance_hours row'
         = wa_weekly_attendance_hours row + sum_hours calls
      /\ wa_id row' = wa_id row
      /\ List.length (weeklyattendance (run_weekly user_id full_name attend_id calls s))
         = List.length (weeklyattendance s)
      /\ well_formed (run_weekly user_id full_name attend_id calls s).
Proof.
  intros Hrep Hcalls.
  induction Hcalls as [|c calls (Hvc & Hmc) _ IH]; intros s row Hwf Hcov.
  - exists row. cbn. repeat split; try assumption; try apply Hwf. lia.
  - cbn [run_weekly].
    assert (Hrepc : week_representable (wc_date c))
      by (unfold week_representable in *; rewrite Hmc; exact Hrep).
    pose proof (week_bounds_ok _ Hvc Hrepc) as Hb.
    assert (Hf : find (covers user_id (wc_date c)) (weeklyattendance s) = Some row).
    { apply (find_of_filter _ _ []).
      change (covering user_id (wc_date c) s = [row]).
      rewrite (covering_same_week user_id (wc_date c) date s);
        [exact Hcov|apply Hwf|exact Hmc]. }
    pose proof (well_formed_step s (wc_new_id c) (wc_now c) user_id full_name
                  attend_id (wc_daily_attendance_hours c) (wc_date c) Hwf Hvc)
      as Hwf1.
    rewrite (weekly_updates _ _ _ _ _ _ _ _ _ _ Hb Hf) in Hwf1 |- *.
    cbn [snd] in Hwf1 |- *.
    match goal with
    | |- context [run_weekly _ _ _ _ ?t] => set (s1 := t) in *
    end.
    assert (Hcov1 : covering user_id date s1
                    = [set_weekly_attendance_hours row
                         (wa_weekly_attendance_hours row
                          + wc_daily_attendance_hours c)]).
    { unfold covering, s1; cbn [weeklyattendance].
      rewrite filter_covers_bump. unfold covering in Hcov. rewrite Hcov.
      cbn [map]. unfold bump. rewrite N.eqb_refl. reflexivity. }
    destruct (IH s1 _ Hwf1 Hcov1) as (row' & Hc' & Hh' & Hid' & Hlen' & Hwf').
    exists row'. split; [exact Hc'|].
    split; [rewrite Hh'; unfold sum_hours; cbn; lia|].
    split; [rewrite Hid'; reflexivity|].
    split; [rewrite Hlen'; unfold s1; cbn [weeklyattendance]; apply length_map|].
    exact Hwf'.
Qed.

(** X5: the weekly row of a user holds the sum of the daily hours folded
    into it.  From a session reached by weekly calls in which no row of the
    user covers the week, any number of calls on days of one week, one after
    the other, leave one row more, the only row of the user covering the
    week, and its hours are the sum of the daily hours of all the calls. *)
Theorem weekly_hours_are_the_sum (s : Session) (user_id : UUID)
    (full_name : string) (attend_id : Z) (c : weekly_call)
    (calls : list weekly_call) :
  reachable s ->
  week_representable (wc_date c) ->
  Forall (fun c' => valid_datetime (wc_date c')
                    /\ monday_of (wc_date c') = monday_of (wc_date c))
         (c :: calls) ->
  covering user_id (wc_date c) s = [] ->
  exists row,
    covering user_id (wc_date c)
      (run_weekly user_id full_name attend_id (c :: calls) s) = [row]
    /\ wa_weekly_attendance_hours row = sum_hours (c :: calls)
    /\ List.length
         (weeklyattendance (run_weekly user_id full_name attend_id (c :: calls) s))
       = S (List.length (weeklyattendance s))
    /\ at_most_one_bucket (run_weekly user_id full_name attend_id (c :: calls) s).
Proof.
  intros Hreach Hrep Hall Hnone.
  pose proof (reachable_well_formed s Hreach) as Hwf.
  inversion Hall as [|c0 l0 (Hvc & _) Hrest]; subst.
  destruct (weekly_inserts_uncovered s (wc_new_id c) (wc_now c) user_id full_name
              attend_id (wc_daily_attendance_hours c) (wc_date c) Hvc Hrep Hnone)
    as (row1 & Hcall & Hh1 & _ & _ & _ & _ & Hc1).
  pose proof (well_formed_step s (wc_new_id c) (wc_now c) user_id full_name
                attend_id (wc_daily_attendance_hours c) (wc_date c) Hwf Hvc)
    as Hwf1.
  cbn [run_weekly]. rewrite Hcall in Hwf1 |- *. cbn [snd] in Hwf1 |- *.
  match goal with
  | |- context [run_weekly _ _ _ _ ?t] => set (s1 := t) in *
  end.
  assert (Hcov1 : covering user_id (wc_date c) s1 = [row1]).
  { unfold covering, s1 in *; cbn [weeklyattendance].
    rewrite filter_app, Hnone. cbn [app filter]. rewrite Hc1. reflexivity. }
  destruct (weekly_accumulates user_id full_name attend_id (wc_date c) calls
              Hrep Hrest s1 row1 Hwf1 Hcov1)
    as (row & Hc & Hh & _ & Hlen & Hwf').
  exists row. split; [exact Hc|].
  split; [rewrite Hh, Hh1; reflexivity|].
  split; [rewrite Hlen; unfold s1; cbn [weeklyattendance];
          rewrite length_app; cbn; lia|].
  apply Hwf'.
Qed.

Lemma weekly_hours_are_the_sum_witness :
  exists row,
    covering Sample.alice Sample.wednesday
      (run_weekly Sample.alice "Alice" 12
         [mk_weekly_call 60%N Sample.wednesday 3 Sample.wednesday;
          mk_weekly_call 61%N Sample.friday 4 Sample.friday;
          mk_weekly_call 62%N Sample.sunday_night 8 Sample.sunday_night]
         Sample.empty) = [row]
    /\ wa_weekly_attendance_hours row = 15.
Proof.
  destruct (weekly_hours_are_the_sum Sample.empty Sample.alice "Alice" 12
              (mk_weekly_call 60%N Sample.wednesday 3 Sample.wednesday)
              [mk_weekly_call 61%N Sample.friday 4 Sample.friday;
               mk_weekly_call 62%N Sample.sunday_night 8 Sample.sunday_night])
    as (row & Hc & Hh & _).
  - apply reachable_init; reflexivity.
  - unfold week_representable; vm_compute; discriminate.
  - repeat constructor; try (apply valid_datetimeb_sound; reflexivity).
  - reflexivity.
  - exists row. split; [exact Hc|exact Hh].
Defined.

Lemma same_id_same_row (l : list WeeklyAttendance) (x y : WeeklyAttendance) :
  NoDup (map wa_id l) -> In x l -> In y l -> wa_id x = wa_id y -> x = y.
Proof.
  induction l as [|a l IH]; cbn; intros Hnd Hx Hy Hid; [destruct Hx|].
  inversion Hnd as [|? ? Hnotin Hnd']; subst.
  destruct Hx as [<-|Hx], Hy as [<-|Hy].
  - reflexivity.
  - exfalso. apply Hnotin. rewrite Hid. apply in_map. exact Hy.
  - exfalso. apply Hnotin. rewrite <- Hid. apply in_map. exact Hx.
  - apply IH; assumption.
Qed.

Lemma map_bump_other (id : UUID) (hours : Z) (l : list WeeklyAttendance) :
  (forall r, In r l -> wa_id r <> id) -> map (bump id hours) l = l.
Proof.
  intros H. rewrite <- (map_id l) at 2. apply map_ext_in. intros r Hr.
  unfold bump. destruct (N.eqb (wa_id r) id) eqn:E; [|reflexivity].
  apply N.eqb_eq in E. destruct (H r Hr E).
Qed.

Lemma sum_bump (l : list WeeklyAttendance) (found : WeeklyAttendance) (h : Z) :
  NoDup (map wa_id l) ->
  In found l ->
  fold_right Z.add 0
    (map wa_weekly_attendance_hours
       (map (bump (wa_id found) (wa_weekly_attendance_hours found + h)) l))
  = fold_right Z.add 0 (map wa_weekly_attendance_hours l) + h.
Proof.
  induction l as [|a l IH]; cbn [map fold_right In]; intros Hnd Hin; [destruct Hin|].
  inversion Hnd as [|? ? Hnotin Hnd']; subst.
  destruct Hin as [->|Hin].
  - rewrite map_bump_other.
    + unfold bump. rewrite N.eqb_refl. cbn. lia.
    + intros r Hr E. apply Hnotin. rewrite <- E. apply in_map. exact Hr.
  - rewrite (IH Hnd' Hin). unfold bump.
    destruct (N.eqb (wa_id a) (wa_id found)) eqn:E; [|lia].
    apply N.eqb_eq in E. exfalso. apply Hnotin. rewrite E. apply in_map. exact Hin.
Qed.

Lemma sum_app_hours (l : list WeeklyAttendance) (row : WeeklyAttendance) :
  fold_right Z.add 0 (map wa_weekly_attendance_hours (l ++ [row]))
  = fold_right Z.add 0 (map wa_weekly_attendance_hours l)
    + wa_weekly_attendance_hours row.
Proof. induction l as [|a l IH]; cbn in *; lia. Qed.

Lemma map_id_bump (id : UUID) (hours : Z) (l : list WeeklyAttendance) :
  map wa_id (map (bump id hours) l) = map wa_id l.
Proof.
  rewrite map_map. apply map_ext. intros r. unfold bump.
  destruct (N.eqb (wa_id r) id); reflexivity.
Qed.

(** X6: no daily hours are lost or counted twice.  When the ids of the
    weekly rows are distinct, a call that returns changes the sum of the
    hours of all weekly rows by the daily hours passed in, whichever branch
    it takes, and a call that raises leaves the session as it was; the ids
    stay distinct when the new id is not one of them. *)
Theorem weekly_total_grows_by_daily_hours (s : Session) (new_id : UUID)
    (now : datetime) (user_id : UUID) (full_name : string) (attend_id : Z)
    (daily_attendance_hours : Z) (date : datetime) :
  unique_ids s ->
  match create_weekly_attendance_or_update new_id now user_id full_name
          attend_id daily_attendance_hours date s with
  | (Ok row, t) =>
      total_weekly_hours t = total_weekly_hours s + daily_attendance_hours
      /\ (~ In new_id (map wa_id (weeklyattendance s)) -> unique_ids t)
  | (Raise e, t) => t = s
  end.
Proof.
  intros Hnd.
  destruct (week_bounds date) as [[start_date end_date]|e] eqn:Hb;
    [|rewrite (weekly_raises _ _ _ _ _ _ _ _ _ Hb); reflexivity].
  destruct (find (covers user_id date) (weeklyattendance s)) as [found|] eqn:Hf.
  - rewrite (weekly_updates _ _ _ _ _ _ _ _ _ _ Hb Hf).
    unfold total_weekly_hours, unique_ids; cbn [weeklyattendance].
    apply find_some in Hf. destruct Hf as (Hin & _).
    split; [apply sum_bump; assumption|].
    intros _. rewrite map_id_bump. exact Hnd.
  - rewrite (weekly_inserts _ _ _ _ _ _ _ _ _ _ Hb Hf).
    unfold total_weekly_hours, unique_ids; cbn [weeklyattendance].
    split; [rewrite sum_app_hours; reflexivity|].
    intros Hfresh. rewrite map_app. cbn [map wa_id].
    apply NoDup_app; [exact Hnd|repeat constructor; intros []|].
    intros x Hx [<-|[]]. exact (Hfresh Hx).
Qed.

Lemma weekly_total_grows_by_daily_hours_witness :
  exists row t,
    create_weekly_attendance_or_update 60%N Sample.friday Sample.alice "Alice" 12
      4 Sample.friday Sample.with_bucket = (Ok row, t)
    /\ total_weekly_hours Sample.with_bucket = 5
    /\ total_weekly_hours t = 9.
Proof.
  pose proof (weekly_total_grows_by_daily_hours Sample.with_bucket 60%N
                Sample.friday Sample.alice "Alice" 12 4 Sample.friday) as H.
  destruct (create_weekly_attendance_or_update 60%N Sample.friday Sample.alice
              "Alice" 12 4 Sample.friday Sample.with_bucket) as [[row|e] t] eqn:E.
  - exists row, t. split; [reflexivity|]. split; [reflexivity|].
    destruct H as (Hsum & _).
    + repeat constructor. intros [].
    + rewrite Hsum. reflexivity.
  - vm_compute in E. discriminate E.
Defined.

(** X7: a call touches the week of its user alone.  In a table of Monday
    to Sunday rows with distinct ids, the rows covering a day of another
    user, or a day of another week of the same user, are after the call
    what they were before it. *)
Theorem weekly_leaves_other_weeks (s : Session) (new_id : UUID) (now : datetime)
    (user_id : UUID) (full_name : string) (attend_id : Z)
    (daily_attendance_hours : Z) (date : datetime)
    (other_user : UUID) (other_date : datetime) :
  Forall aligned (weeklyattendance s) ->
  unique_ids s ->
  valid_datetime date ->
  other_user <> user_id \/ monday_of other_date <> monday_of date ->
  covering other_user other_date
    (snd (create_weekly_attendance_or_update new_id now user_id full_name
            attend_id daily_attendance_hours date s))
  = covering other_user other_date s.
Proof.
  intros Hal Hnd Hv Hother.
  destruct (week_bounds date) as [[start_date end_date]|e] eqn:Hb;
    [|rewrite (weekly_raises _ _ _ _ _ _ _ _ _ Hb); reflexivity].
  destruct (find (covers user_id date) (weeklyattendance s)) as [found|] eqn:Hf.
  - rewrite (weekly_updates _ _ _ _ _ _ _ _ _ _ Hb Hf). cbn [snd].
    unfold covering; cbn [weeklyattendance].
    rewrite filter_covers_bump. apply map_bump_other.
    intros r Hr Hid. apply filter_In in Hr. destruct Hr as (Hrin & Hrc).
    apply find_some in Hf. destruct Hf as (Hfin & Hfc).
    assert (r = found) by (apply (same_id_same_row _ _ _ Hnd); assumption).
    subst r. rewrite Forall_forall in Hal.
    pose proof (aligned_covers_monday _ _ _ (Hal found Hfin) Hrc) as Hm1.
    pose proof (aligned_covers_monday _ _ _ (Hal found Hfin) Hfc) as Hm2.
    apply covers_iff in Hrc. apply covers_iff in Hfc.
    destruct Hother as [Hu|Hm]; [apply Hu|apply Hm]; intuition congruence.
  - rewrite (weekly_inserts _ _ _ _ _ _ _ _ _ _ Hb Hf). cbn [snd].
    unfold covering; cbn [weeklyattendance].
    match goal with
    | |- filter _ (_ ++ [?w]) = _ => set (new := w)
    end.
    destruct (new_bucket_aligned date start_date end_date new Hv Hb eq_refl eq_refl)
      as (Hnew & _ & _).
    rewrite filter_app. cbn [filter].
    destruct (covers other_user other_date new) eqn:Hc; [|apply app_nil_r].
    exfalso.
    pose proof (aligned_covers_monday _ _ _ Hnew Hc) as Hm1.
    assert (Hcd : covers user_id date new = true)
      by (destruct (new_bucket_aligned date start_date end_date new Hv Hb
                      eq_refl eq_refl) as (_ & Hs & He);
          apply monday_covers; [reflexivity|exact Hs|exact He]).
    pose proof (aligned_covers_monday _ _ _ Hnew Hcd) as Hm2.
    apply covers_iff in Hc. destruct Hc as (Hu & _). cbn in Hu.
    destruct Hother as [Ho|Hm]; [apply Ho|apply Hm]; congruence.
Qed.

Lemma weekly_leaves_other_weeks_witness :
  covering Sample.alice Sample.wednesday
    (snd (create_weekly_attendance_or_update 60%N Sample.friday Sample.alice
            "Alice" 12 4 (make 2025 2 26 9 0 0 0) Sample.with_bucket))
  = [Sample.bucket].
Proof.
  rewrite (weekly_leaves_other_weeks Sample.with_bucket 60%N Sample.friday
             Sample.alice "Alice" 12 4 (make 2025 2 26 9 0 0 0) Sample.alice
             Sample.wednesday).
  - reflexivity.
  - repeat constructor; reflexivity.
  - repeat constructor. intros [].
  - apply valid_datetimeb_sound; reflexivity.
  - right. vm_compute. discriminate.
Defined.

Lemma week_representable_iff (date : datetime) :
  week_representable date <-> Datetime.date date <= LAST_FULL_WEEK_DAY.
Proof.
  unfold week_representable, monday_of, weekday, Datetime.date.
  change LAST_FULL_WEEK_DAY with 3652054. change MAXORDINAL with 3652059.
  pose proof (Z.div_mod (dt_ordinal date + 6) 7 ltac:(lia)) as E.
  pose proof (Z.mod_pos_bound (dt_ordinal date + 6) 7 ltac:(lia)) as B.
  lia.
Qed.

(** X8: the overflow of the end date is raised for the dates after
    9999-12-26 and for no other.  For such a date the call raises it before
    it looks up or writes anything and leaves the session as it was; for a
    date up to 9999-12-26 the two boundaries of the week are computed, the
    Monday and the Sunday of the date, and the call does not end with this
    error. *)
Theorem weekly_overflow_exactly_in_last_week (s : Session) (new_id : UUID)
    (now : datetime) (user_id : UUID) (full_name : string) (attend_id : Z)
    (daily_attendance_hours : Z) (date : datetime) :
  valid_datetime date ->
  (LAST_FULL_WEEK_DAY < Datetime.date date
   <-> fst (create_weekly_attendance_or_update new_id now user_id full_name
              attend_id daily_attendance_hours date s)
       = Raise (OverflowError "date value out of range"))
  /\ (LAST_FULL_WEEK_DAY < Datetime.date date ->
      snd (create_weekly_attendance_or_update new_id now user_id full_name
             attend_id daily_attendance_hours date s) = s)
  /\ (Datetime.date date <= LAST_FULL_WEEK_DAY ->
      exists start_date end_date,
        week_bounds date = Ok (start_date, end_date)
        /\ Datetime.date start_date = monday_of date
        /\ Datetime.date end_date = monday_of date + 6
        /\ Datetime.date end_date <= MAXORDINAL).
Proof.
  intros Hv.
  assert (Hraise : LAST_FULL_WEEK_DAY < Datetime.date date ->
            create_weekly_attendance_or_update new_id now user_id full_name
              attend_id daily_attendance_hours date s
            = (Raise (OverflowError "date value out of range"), s)).
  { intros Hgt. apply weekly_raises. apply week_bounds_overflow; [exact Hv|].
    rewrite week_representable_iff. lia. }
  split; [split|split].
  - intros Hgt. rewrite (Hraise Hgt). reflexivity.
  - intros E.
    destruct (Z.lt_ge_cases LAST_FULL_WEEK_DAY (Datetime.date date)) as [Hgt|Hle];
      [exact Hgt|exfalso].
    apply Z.ge_le_iff in Hle. apply Z.ge_le in Hle.
    apply week_representable_iff in Hle.
    pose proof (week_bounds_ok date Hv Hle) as Hb.
    destruct (find (covers user_id date) (weeklyattendance s)) as [found|] eqn:Hf.
    + rewrite (weekly_updates _ _ _ _ _ _ _ _ _ _ Hb Hf) in E. discriminate E.
    + rewrite (weekly_inserts _ _ _ _ _ _ _ _ _ _ Hb Hf) in E. discriminate E.
  - intros Hgt. rewrite (Hraise Hgt). reflexivity.
  - intros Hle. apply week_representable_iff in Hle.
    do 2 eexists. split; [apply (week_bounds_ok date Hv Hle)|].
    unfold Datetime.date; cbn [dt_ordinal]. repeat split. exact Hle.
Qed.

Lemma weekly_overflow_exactly_in_last_week_witness :
  (exists start_date end_date,
     week_bounds (make 9999 12 26 23 59 59 999999) = Ok (start_date, end_date)
     /\ Datetime.date start_date = ymd2ord 9999 12 20
     /\ Datetime.date end_date = ymd2ord 9999 12 26)
  /\ create_weekly_attendance_or_update 60%N Sample.friday Sample.alice "Alice" 12
       4 (make 9999 12 27 0 0 0 0) Sample.with_bucket
     = (Raise (OverflowError "date value out of range"), Sample.with_bucket).
Proof.
  split.
  - destruct (weekly_overflow_exactly_in_last_week Sample.with_bucket 60%N
                Sample.friday Sample.alice "Alice" 12 4
                (make 9999 12 26 23 59 59 999999))
      as (_ & _ & Hok).
    + apply valid_datetimeb_sound; reflexivity.
    + destruct Hok as (sd & ed & Hb & Hs & He & _); [vm_compute; discriminate|].
      exists sd, ed. split; [exact Hb|]. split.
      * rewrite Hs. reflexivity.
      * rewrite He. reflexivity.
  - destruct (weekly_overflow_exactly_in_last_week Sample.with_bucket 60%N
                Sample.friday Sample.alice "Alice" 12 4
                (make 9999 12 27 0 0 0 0))
      as (Hiff & Hsame & _).
    + apply valid_datetimeb_sound; reflexivity.
    + assert (Hgt : LAST_FULL_WEEK_DAY < Datetime.date (make 9999 12 27 0 0 0 0))
        by (vm_compute; reflexivity).
      apply Hiff in Hgt. specialize (Hsame ltac:(vm_compute; reflexivity)).
      destruct (create_weekly_attendance_or_update 60%N Sample.friday Sample.alice
                  "Alice" 12 4 (make 9999 12 27 0 0 0 0) Sample.with_bucket)
        as [r t].
      cbn [fst snd] in Hgt, Hsame. rewrite Hgt, Hsame. reflexivity.
Defined.

Lemma week_window_bump (id : UUID) (hours : Z) (r : WeeklyAttendance) :
  week_window r -> week_window (bump id hours r).
Proof. unfold bump. destruct (N.eqb (wa_id r) id); intros H; exact H. Qed.

(** X9: every weekly row that the aggregation has written is a week: in a
    session reached by weekly calls from an empty weekly table, the start
    and end dates of each row are datetimes, a Monday and the Sunday six
    days later, at the same time of day. *)
Theorem reachable_rows_are_weeks (s : Session) :
  reachable s -> Forall week_window (weeklyattendance s).
Proof.
  induction 1 as [s Hnil|s new_id now u fn aid h d Hr IH Hv].
  - rewrite Hnil. constructor.
  - destruct (week_bounds d) as [[start_date end_date]|e] eqn:Hb;
      [|rewrite (weekly_raises _ _ _ _ _ _ _ _ _ Hb); exact IH].
    destruct (find (covers u d) (weeklyattendance s)) as [found|] eqn:Hf.
    + rewrite (weekly_updates _ _ _ _ _ _ _ _ _ _ Hb Hf).
      cbn [snd weeklyattendance]. apply Forall_map.
      eapply Forall_impl; [|exact IH]. intros r. apply week_window_bump.
    + destruct (week_bounds_inv _ _ _ Hv Hb) as (_ & _ & Hrep).
      destruct (weekly_inserts_uncovered s new_id now u fn aid h d Hv Hrep)
        as (row & Hcall & _ & _ & _ & Hwin & _);
        [apply find_none_iff; exact Hf|].
      rewrite Hcall. cbn [snd weeklyattendance].
      apply Forall_app. split; [exact IH|]. constructor; [exact Hwin|constructor].
Qed.

Lemma reachable_rows_are_weeks_witness :
  Forall week_window
    (weeklyattendance
       (run_weekly Sample.alice "Alice" 12
          [mk_weekly_call 60%N Sample.wednesday 3 Sample.wednesday;
           mk_weekly_call 61%N Sample.friday 4 (make 2025 3 7 18 0 0 0)]
          Sample.empty)).
Proof.
  apply reachable_rows_are_weeks. cbn [run_weekly].
  apply reachable_step; [apply reachable_step|].
  - apply reachable_init; reflexivity.
  - apply valid_datetimeb_sound; reflexivity.
  - apply valid_datetimeb_sound; reflexivity.
Defined.

(** ** Users: lookup, authentication and creation *)

Lemma get_user_by_email_found (db : Database) (email : string) (u : User) :
  find (fun u => String.eqb (u_email u) email) (user db) = Some u ->
  get_user_by_email email db = (Returned (Some u), db).
Proof.
  intros H. unfold get_user_by_email, db_bind, exec_first_user.
  rewrite H. reflexivity.
Qed.

Lemma get_user_by_email_missing (db : Database) (email : string) :
  find (fun u => String.eqb (u_email u) email) (user db) = None ->
  get_user_by_email email db
  = (Raised (AttributeError "'NoneType' object has no attribute 'email'"), db).
Proof.
  intros H. unfold get_user_by_email, db_bind, exec_first_user.
  rewrite H. reflexivity.
Qed.

(** X10: [get_user_by_email] never returns [None], although its signature
    allows it.  When no user has the email, the log line reads the email of
    [None] and the call raises [AttributeError]; this is the only case in
    which it raises.  A user it returns is a row of the table with that
    email, and the database is left as it was. *)
Theorem get_user_by_email_never_returns_none (db : Database) (email : string) :
  snd (get_user_by_email email db) = db
  /\ fst (get_user_by_email email db) <> Returned None
  /\ ((forall u, In u (user db) -> u_email u <> email)
      <-> fst (get_user_by_email email db)
          = Raised (AttributeError "'NoneType' object has no attribute 'email'"))
  /\ (forall u, fst (get_user_by_email email db) = Returned (Some u) ->
        In u (user db) /\ u_email u = email).
Proof.
  destruct (find (fun u => String.eqb (u_email u) email) (user db)) as [u|] eqn:Hf.
  - rewrite (get_user_by_email_found _ _ _ Hf). cbn [fst snd].
    apply find_some in Hf. destruct Hf as (Hin & He). apply String.eqb_eq in He.
    split; [reflexivity|]. split; [discriminate|]. split.
    + split; [|discriminate]. intros Hno. destruct (Hno u Hin He).
    + intros u' H. injection H as <-. split; assumption.
  - rewrite (get_user_by_email_missing _ _ Hf). cbn [fst snd].
    split; [reflexivity|]. split; [discriminate|]. split.
    + split; [reflexivity|]. intros _ u Hin He.
      pose proof (find_none _ _ Hf u Hin) as Hne. cbn in Hne.
      apply String.eqb_neq in Hne. contradiction.
    + discriminate.
Qed.

(** X11: [authenticate] returns a user exactly for an email of the table
    with a password that [verify_password] accepts for the stored hash, and
    returns [None] only for a known email with a wrong password: for an
    email that no user has it raises [AttributeError], the branch for a
    missing user being never taken.  It leaves the database as it was. *)
Theorem authenticate_outcome (verify_password : string -> string -> bool)
    (db : Database) (email password : string) :
  snd (authenticate verify_password email password db) = db
  /\ ((forall u, In u (user db) -> u_email u <> email)
      <-> fst (authenticate verify_password email password db)
          = Raised (AttributeError "'NoneType' object has no attribute 'email'"))
  /\ (forall u,
        fst (authenticate verify_password email password db) = Returned (Some u) ->
        In u (user db) /\ u_email u = email
        /\ verify_password password (u_hashed_password u) = true)
  /\ (fst (authenticate verify_password email password db) = Returned None ->
      exists u, In u (user db) /\ u_email u = email
                /\ verify_password password (u_hashed_password u) = false).
Proof.
  unfold authenticate, db_bind.
  destruct (find (fun u => String.eqb (u_email u) email) (user db)) as [u|] eqn:Hf.
  - rewrite (get_user_by_email_found _ _ _ Hf).
    apply find_some in Hf. destruct Hf as (Hin & He). apply String.eqb_eq in He.
    destruct (verify_password password (u_hashed_password u)) eqn:Hv;
      cbn [negb fst snd getattr_email db_ret].
    + split; [reflexivity|]. split; [|split].
      * split; [|discriminate]. intros Hno. destruct (Hno u Hin He).
      * intros u' H. injection H as <-. repeat split; assumption.
      * discriminate.
    + split; [reflexivity|]. split; [|split].
      * split; [|discriminate]. intros Hno. destruct (Hno u Hin He).
      * discriminate.
      * intros _. exists u. repeat split; assumption.
  - rewrite (get_user_by_email_missing _ _ Hf). cbn [fst snd].
    split; [reflexivity|]. split; [|split].
    + split; [reflexivity|]. intros _ u Hin He.
      pose proof (find_none _ _ Hf u Hin) as Hne. cbn in Hne.
      apply String.eqb_neq in Hne. contradiction.
    + discriminate.
    + discriminate.
Qed.

Lemma existsb_conflicts_false (obj : User) (l : list User) :
  (forall u, In u l ->
     u_id u <> u_id obj /\ u_email u <> u_email obj
     /\ u_attend_id u <> u_attend_id obj) ->
  existsb (conflicts obj) l = false.
Proof.
  intros H. apply not_true_iff_false. intros E.
  apply existsb_exists in E. destruct E as (u & Hin & Hc).
  destruct (H u Hin) as (Hi & He & Ha).
  unfold conflicts in Hc. rewrite !orb_true_iff in Hc.
  destruct Hc as [[Hc|Hc]|Hc].
  - apply N.eqb_eq in Hc. contradiction.
  - apply String.eqb_eq in Hc. contradiction.
  - apply Z.eqb_eq in Hc. contradiction.
Qed.

Lemma find_app_last {A : Type} (p : A -> bool) (l : list A) (x : A) :
  (forall a, In a l -> p a = false) -> p x = true -> find p (l ++ [x]) = Some x.
Proof.
  intros Hl Hx. rewrite find_app_skip by (apply filter_nil_iff; exact Hl).
  cbn. rewrite Hx. reflexivity.
Qed.

(** X12: a user that was created can log in.  When no row of the user table
    has the new id, the email or the attendance id of the new user, and
    [verify_password] accepts the password for the hash that
    [get_password_hash] makes of it, [create_user] appends one row that
    holds the hash of the password, and [get_user_by_email] and
    [authenticate] with the same email and password then return that
    row. *)
Theorem create_user_then_authenticate (get_password_hash : string -> string)
    (verify_password : string -> string -> bool) (new_id : UUID)
    (user_create : UserCreate) (db : Database) :
  (forall u, In u (user db) ->
     u_id u <> new_id /\ u_email u <> uc_email user_create
     /\ u_attend_id u <> uc_attend_id user_create) ->
  verify_password (uc_password user_create)
    (get_password_hash (uc_password user_create)) = true ->
  exists created db',
    create_user get_password_hash new_id user_create db = (Returned created, db')
    /\ user db' = user db ++ [created]
    /\ tables db' = tables db
    /\ u_email created = uc_email user_create
    /\ u_id created = new_id
    /\ u_hashed_password created = get_password_hash (uc_password user_create)
    /\ get_user_by_email (uc_email user_create) db' = (Returned (Some created), db')
    /\ authenticate verify_password (uc_email user_create)
         (uc_password user_create) db'
       = (Returned (Some created), db').
Proof.
  intros Hfree Hverify.
  unfold create_user.
  match goal with
  | |- context [insert_user ?o] => set (obj := o)
  end.
  unfold db_bind, insert_user.
  rewrite (existsb_conflicts_false obj (user db) Hfree).
  cbn [getattr_email db_ret].
  do 2 eexists. split; [reflexivity|].
  cbn [user tables].
  repeat (split; [reflexivity|]).
  assert (Hget : get_user_by_email (uc_email user_create)
                   {| user := user db ++ [obj]; tables := tables db |}
                 = (Returned (Some obj),
                    {| user := user db ++ [obj]; tables := tables db |})).
  { apply get_user_by_email_found. cbn [user]. apply find_app_last.
    - intros a Ha. apply String.eqb_neq. apply (Hfree a Ha).
    - apply String.eqb_refl. }
  split; [exact Hget|].
  unfold authenticate, db_bind. rewrite Hget.
  change (u_hashed_password obj) with (get_password_hash (uc_password user_create)).
  rewrite Hverify. reflexivity.
Qed.

Lemma create_user_then_authenticate_witness :
  exists created db',
    create_user SampleUsers.get_password_hash 9%N SampleUsers.alice_create
      SampleUsers.only_bob = (Returned created, db')
    /\ user db' = [SampleUsers.bob; created]
    /\ u_hashed_password created = "hashed:correct horse"%string
    /\ authenticate SampleUsers.verify_password "alice@example.com"
         "correct horse" db' = (Returned (Some created), db').
Proof.
  destruct (create_user_then_authenticate SampleUsers.get_password_hash
              SampleUsers.verify_password 9%N SampleUsers.alice_create
              SampleUsers.only_bob)
    as (created & db' & Hc & Hu & _ & _ & _ & Hh & _ & Ha).
  - intros u [<-|[]]. repeat split; vm_compute; discriminate.
  - reflexivity.
  - exists created, db'. repeat split; assumption.
Defined.

(** X13: [create_user] stores no second user with an email, an attendance
    id or an id that a row of the table already has: the commit violates
    the constraint that [models.py] declares, the call raises
    [IntegrityError] and the database is left as it was.  Two users cannot
    both keep the default attendance id. *)
Theorem create_user_rejects_duplicates (get_password_hash : string -> string)
    (new_id : UUID) (user_create : UserCreate) (db : Database) (u : User) :
  In u (user db) ->
  u_email u = uc_email user_create
  \/ u_attend_id u = uc_attend_id user_create
  \/ u_id u = new_id ->
  create_user get_password_hash new_id user_create db = (Raised IntegrityError, db).
Proof.
  intros Hin Hdup.
  unfold create_user, db_bind, insert_user.
  replace (existsb _ (user db)) with true; [reflexivity|].
  symmetry. apply existsb_exists. exists u. split; [exact Hin|].
  unfold conflicts. cbn [u_id u_email u_attend_id].
  rewrite !orb_true_iff.
  destruct Hdup as [He|[Ha|Hi]].
  - left; right. apply String.eqb_eq. exact He.
  - right. apply Z.eqb_eq. exact Ha.
  - left; left. apply N.eqb_eq. exact Hi.
Qed.

Lemma create_user_rejects_duplicates_witness :
  u_attend_id SampleUsers.bob = 0
  /\ uc_attend_id SampleUsers.carol_create = 0
  /\ create_user SampleUsers.get_password_hash 10%N SampleUsers.carol_create
       SampleUsers.only_bob = (Raised IntegrityError, SampleUsers.only_bob).
Proof.
  split; [reflexivity|]. split; [reflexivity|].
  apply (create_user_rejects_duplicates SampleUsers.get_password_hash 10%N
           SampleUsers.carol_create SampleUsers.only_bob SampleUsers.bob).
  - left; reflexivity.
  - right; left; reflexivity.
Defined.
